(** * OpenAIModule: the fine-tuning lifecycle of
    [lazyllm/module/onlineChatModule/openaiModule.py]

    A shallow embedding of the methods of [OpenAIModule]
    ([_convert_file_format], [_upload_train_file], [_create_finetuning_job],
    [_query_finetuning_job], [_create_deployment], [_query_deployment]) and
    the properties of the design document that concern them.

    Conventions.
    - A Python [str] is a Rocq [string] holding its UTF-8 bytes; [bytes] are
      a [string] too.  Positions are byte positions.
    - A value produced by [json.loads] is a [json]; a [dict] is an
      association list in insertion order without repeated keys.
    - A raised exception is the [Raise] branch of [result].
    - The collaborators that are not part of the module ([json], the file
      system, [requests], the base class [FileHandlerBase]) are type classes;
      every general theorem holds for all their instances.  Reference
      instances make the model executable on concrete inputs. *)

From Stdlib Require Import String Ascii List ZArith Lia Bool Arith.
From Stdlib Require Import DecimalString.
Import ListNotations.
Local Open Scope list_scope.
Local Open Scope string_scope.
Set Warnings "-register-all".

(* ===================================================================== *)
(** ** Python values and exceptions *)
(* ===================================================================== *)

(** What [json.loads] builds.  A float is kept as the literal it was read
    from: no method of the module inspects a number. *)
Inductive json : Type :=
| JNull
| JBool (b : bool)
| JInt (n : Z)
| JFloat (lit : string)
| JStr (s : string)
| JArr (items : list json)
| JObj (fields : list (string * json)).

(** The exception classes the module can raise or let through. *)
Inductive exn : Type :=
| JSONDecodeError (msg : string) (doc : string) (pos : nat)
| AttributeError (type_name : string) (attr : string)
| TypeError (msg : string)
| KeyError (key : string)
| UnicodeDecodeError
| FileNotFoundError (path : string)
| RecursionError
| ConnectionError (msg : string)
| RequestException (msg : string).

Inductive result (A : Type) : Type :=
| Ok (a : A)
| Raise (e : exn).
Arguments Ok {A} a.
Arguments Raise {A} e.

Definition bind {A B : Type} (m : result A) (k : A -> result B) : result B :=
  match m with
  | Ok a => k a
  | Raise e => Raise e
  end.

Declare Scope py_scope.
Delimit Scope py_scope with py.
Notation "x <- m ;; k" := (bind m (fun x => k))
  (at level 61, m at next level, right associativity) : py_scope.
Local Open Scope py_scope.

Definition LF : ascii := ascii_of_nat 10.
Definition CR : ascii := ascii_of_nat 13.
Definition newline : string := String LF EmptyString.

(** [type(v).__name__] *)
Definition type_name (v : json) : string :=
  match v with
  | JNull => "NoneType"
  | JBool _ => "bool"
  | JInt _ => "int"
  | JFloat _ => "float"
  | JStr _ => "str"
  | JArr _ => "list"
  | JObj _ => "dict"
  end.

(** *** dict *)

Definition dict : Type := list (string * json).

Fixpoint dict_get (key : string) (d : dict) : option json :=
  match d with
  | [] => None
  | (k, v) :: rest => if String.eqb k key then Some v else dict_get key rest
  end.

(** [d[key] = v]: an existing key keeps its place, a new one goes last. *)
Fixpoint dict_set (key : string) (v : json) (d : dict) : dict :=
  match d with
  | [] => [(key, v)]
  | (k, w) :: rest =>
      if String.eqb k key then (k, v) :: rest else (k, w) :: dict_set key v rest
  end.

(** [d.update(kw)] *)
Definition dict_update (d kw : dict) : dict :=
  fold_left (fun acc kv => dict_set (fst kv) (snd kv) acc) kw d.

(** [obj.get(key, default)]: only a dict has the method. *)
Definition py_get (obj : json) (key : string) (default : json) : result json :=
  match obj with
  | JObj d =>
      match dict_get key d with
      | Some v => Ok v
      | None => Ok default
      end
  | _ => Raise (AttributeError (type_name obj) "get")
  end.

(** [obj[key]] for a string key. *)
Definition py_getitem (obj : json) (key : string) : result json :=
  match obj with
  | JObj d =>
      match dict_get key d with
      | Some v => Ok v
      | None => Raise (KeyError key)
      end
  | JArr _ => Raise (TypeError "list indices must be integers or slices, not str")
  | JStr _ => Raise (TypeError "string indices must be integers, not 'str'")
  | _ => Raise (TypeError ("'" ++ type_name obj ++ "' object is not subscriptable"))
  end.

Fixpoint chars (s : string) : list json :=
  match s with
  | EmptyString => []
  | String c rest => JStr (String c EmptyString) :: chars rest
  end.

(** [for x in obj]: a list yields its items, a dict its keys, a str its
    characters (here one item per byte; every such item is a [str]);
    nothing else is iterable. *)
Definition py_iter (obj : json) : result (list json) :=
  match obj with
  | JArr items => Ok items
  | JObj d => Ok (map (fun kv => JStr (fst kv)) d)
  | JStr s => Ok (chars s)
  | _ => Raise (TypeError ("'" ++ type_name obj ++ "' object is not iterable"))
  end.

(** [v == s] for a string literal [s]. *)
Definition py_eq_str (v : json) (s : string) : bool :=
  match v with
  | JStr t => String.eqb t s
  | _ => false
  end.

(** [v in [s1, ..., sn]] *)
Definition py_in (v : json) (l : list string) : bool := existsb (py_eq_str v) l.

Definition lower_ascii (c : ascii) : ascii :=
  let n := nat_of_ascii c in
  if ((65 <=? n) && (n <=? 90))%nat then ascii_of_nat (n + 32) else c.

(** [s.lower()].  Only the letters A-Z change here; Python also lowers
    letters outside ASCII, none of which becomes a letter of
    ["succeeded"], so the comparison of [_query_finetuning_job] is the
    same. *)
Fixpoint lower (s : string) : string :=
  match s with
  | EmptyString => EmptyString
  | String c rest => String (lower_ascii c) (lower rest)
  end.

(** [v.lower()]: only a str has the method. *)
Definition py_lower (v : json) : result string :=
  match v with
  | JStr s => Ok (lower s)
  | _ => Raise (AttributeError (type_name v) "lower")
  end.

(* ===================================================================== *)
(** ** The collaborators *)
(* ===================================================================== *)

(** [json.loads] and [json.dumps(_, ensure_ascii=False)]. *)
Class JsonCodec : Type := {
  json_loads : string -> result json;
  json_dumps : json -> string
}.

(** [open(path, 'r', encoding='utf-8')]: the text of the file, or [None]
    when it cannot be opened. *)
Class FileSystem : Type := {
  read_text : string -> option string
}.

(** Text mode reads with universal newlines: CR LF and a lone CR become LF. *)
Fixpoint universal_newlines (s : string) : string :=
  match s with
  | EmptyString => EmptyString
  | String c rest =>
      if Ascii.eqb c CR then
        match rest with
        | String c' rest' =>
            if Ascii.eqb c' LF then String LF (universal_newlines rest')
            else String LF (universal_newlines rest)
        | EmptyString => String LF EmptyString
        end
      else String c (universal_newlines rest)
  end.

(** [for line in fr]: the lines, each with its ending LF (the last one may
    have none). *)
Fixpoint readlines (s : string) : list string :=
  match s with
  | EmptyString => []
  | String c rest =>
      if Ascii.eqb c LF then String c EmptyString :: readlines rest
      else
        match readlines rest with
        | [] => [String c EmptyString]
        | line :: lines => String c line :: lines
        end
  end.

(* ===================================================================== *)
(** ** [_convert_file_format] *)
(* ===================================================================== *)

Section Conversion.
Context {codec : JsonCodec} {fs : FileSystem}.

(** [dataset = [json.loads(line) for line in fr]] *)
Fixpoint load_lines (lines : list string) : result (list json) :=
  match lines with
  | [] => Ok []
  | line :: rest =>
      ex <- json_loads line ;;
      exs <- load_lines rest ;;
      Ok (ex :: exs)
  end.

Definition recognized_roles : list string := ["system"; "user"; "assistant"].

(** The inner loop, lines 41-45; [acc] is [lineEx["messages"]]. *)
Fixpoint convert_messages (messages : list json) (acc : list json)
  : result (list json) :=
  match messages with
  | [] => Ok acc
  | message :: rest =>
      role <- py_get message "role" (JStr "") ;;
      content <- py_get message "content" (JStr "") ;;
      if py_in role recognized_roles
      then convert_messages rest
             (acc ++ [JObj [("role", role); ("content", content)]])%list
      else convert_messages rest acc
  end.

(** One turn of the outer loop, lines 39-45: the [lineEx] built for [ex]. *)
Definition convert_example (ex : json) : result json :=
  messages <- py_get ex "messages" (JArr []) ;;
  items <- py_iter messages ;;
  kept <- convert_messages items [] ;;
  Ok (JObj [("messages", JArr kept)]).

(** The outer loop, lines 37-46; [json_strs] is the list built so far. *)
Fixpoint convert_examples (dataset : list json) (json_strs : list string)
  : result (list string) :=
  match dataset with
  | [] => Ok json_strs
  | ex :: rest =>
      lineEx <- convert_example ex ;;
      convert_examples rest (json_strs ++ [json_dumps lineEx])%list
  end.

Definition _convert_file_format (filepath : string) : result string :=
  match read_text filepath with
  | None => Raise (FileNotFoundError filepath)
  | Some text =>
      dataset <- load_lines (readlines (universal_newlines text)) ;;
      json_strs <- convert_examples dataset [] ;;
      Ok (String.concat newline json_strs)
  end.

(** The records [_convert_file_format] serialises, before [json.dumps]. *)
Fixpoint convert_dataset (dataset : list json) : result (list json) :=
  match dataset with
  | [] => Ok []
  | ex :: rest =>
      lineEx <- convert_example ex ;;
      out <- convert_dataset rest ;;
      Ok (lineEx :: out)
  end.

End Conversion.

(* ===================================================================== *)
(** ** A reference [json] codec *)
(* ===================================================================== *)

(** An executable [json.loads] / [json.dumps(_, ensure_ascii=False)] after
    [json/decoder.py], [json/scanner.py] and [json/encoder.py]: the same
    grammar, the same error messages, positions counted in bytes.  A float
    is read and written as its literal. *)
Module RefJson.

Definition dquote : ascii := ascii_of_nat 34.
Definition backslash : ascii := ascii_of_nat 92.

Definition code (c : ascii) : N := N_of_ascii c.

Definition is_ws (c : ascii) : bool :=
  let n := code c in
  ((n =? 32) || (n =? 9) || (n =? 10) || (n =? 13))%N.

Fixpoint skip_ws (s : string) (pos : nat) : string * nat :=
  match s with
  | String c rest => if is_ws c then skip_ws rest (S pos) else (s, pos)
  | EmptyString => (s, pos)
  end.

Definition is_digit (c : ascii) : bool :=
  let n := code c in ((48 <=? n) && (n <=? 57))%N.

Definition hex_val (c : ascii) : option N :=
  let n := code c in
  if ((48 <=? n) && (n <=? 57))%N then Some (n - 48)%N
  else if ((97 <=? n) && (n <=? 102))%N then Some (n - 87)%N
  else if ((65 <=? n) && (n <=? 70))%N then Some (n - 55)%N
  else None.

(** [_decode_uXXXX]: the four hex digits after [\u]. *)
Definition decode_uXXXX (s : string) : option (N * string) :=
  match s with
  | String a (String b (String c (String d rest))) =>
      match hex_val a, hex_val b, hex_val c, hex_val d with
      | Some x, Some y, Some z, Some w =>
          Some ((((x * 16 + y) * 16 + z) * 16 + w)%N, rest)
      | _, _, _, _ => None
      end
  | _ => None
  end.

Definition byte (n : N) : ascii := ascii_of_N n.

(** [chr(uni)] as UTF-8 bytes. *)
Definition utf8_encode (u : N) : string :=
  if (u <? 128)%N then String (byte u) EmptyString
  else if (u <? 2048)%N then
    String (byte (192 + u / 64)) (String (byte (128 + u mod 64)) EmptyString)
  else if (u <? 65536)%N then
    String (byte (224 + u / 4096))
      (String (byte (128 + (u / 64) mod 64))
         (String (byte (128 + u mod 64)) EmptyString))
  else
    String (byte (240 + u / 262144))
      (String (byte (128 + (u / 4096) mod 64))
         (String (byte (128 + (u / 64) mod 64))
            (String (byte (128 + u mod 64)) EmptyString))).

(** The table [BACKSLASH] of [json/decoder.py]. *)
Definition unescape (c : ascii) : option ascii :=
  let n := code c in
  if (n =? 34)%N then Some dquote
  else if (n =? 92)%N then Some backslash
  else if (n =? 47)%N then Some "/"%char
  else if (n =? 98)%N then Some (ascii_of_nat 8)
  else if (n =? 102)%N then Some (ascii_of_nat 12)
  else if (n =? 110)%N then Some LF
  else if (n =? 114)%N then Some CR
  else if (n =? 116)%N then Some (ascii_of_nat 9)
  else None.

Section Decoder.
Variable doc : string.

Definition decode_error {A : Type} (msg : string) (pos : nat) : result A :=
  Raise (JSONDecodeError msg doc pos).

(** [scanstring(s, end, strict=True)]: [s] starts after the opening quote,
    [begin] is the position of that quote. *)
Fixpoint scanstring (fuel : nat) (begin : nat) (s : string) (pos : nat)
  (acc : string) : result (string * (string * nat)) :=
  match fuel with
  | O => Raise RecursionError
  | S fuel' =>
      match s with
      | EmptyString => decode_error "Unterminated string starting at" begin
      | String c rest =>
          if Ascii.eqb c dquote then Ok (acc, (rest, S pos))
          else if Ascii.eqb c backslash then
            match rest with
            | EmptyString => decode_error "Unterminated string starting at" begin
            | String esc rest' =>
                if Ascii.eqb esc "u"%char then
                  match decode_uXXXX rest' with
                  | None => decode_error "Invalid \uXXXX escape" pos
                  | Some (uni, rest2) =>
                      let single :=
                        scanstring fuel' begin rest2 (pos + 6)
                          (acc ++ utf8_encode uni) in
                      if ((55296 <=? uni) && (uni <=? 56319))%N then
                        match rest2 with
                        | String b1 (String b2 rest3) =>
                            if Ascii.eqb b1 backslash && Ascii.eqb b2 "u"%char
                            then
                              match decode_uXXXX rest3 with
                              | None =>
                                  decode_error "Invalid \uXXXX escape" (pos + 6)
                              | Some (uni2, rest4) =>
                                  if ((56320 <=? uni2) && (uni2 <=? 57343))%N
                                  then
                                    scanstring fuel' begin rest4 (pos + 12)
                                      (acc ++ utf8_encode
                                         (65536 + ((uni - 55296) * 1024
                                                   + (uni2 - 56320)))%N)
                                  else single
                              end
                            else single
                        | _ => single
                        end
                      else single
                  end
                else
                  match unescape esc with
                  | Some ch =>
                      scanstring fuel' begin rest' (pos + 2)
                        (acc ++ String ch EmptyString)
                  | None => decode_error "Invalid \escape" pos
                  end
            end
          else if (code c <? 32)%N then
            decode_error "Invalid control character at" pos
          else scanstring fuel' begin rest (S pos) (acc ++ String c EmptyString)
      end
  end.

Fixpoint span_digits (s : string) : string * string :=
  match s with
  | String c rest =>
      if is_digit c then
        let (ds, tl) := span_digits rest in (String c ds, tl)
      else (EmptyString, s)
  | EmptyString => (EmptyString, s)
  end.

Fixpoint digits_value (ds : string) (acc : Z) : Z :=
  match ds with
  | EmptyString => acc
  | String c rest => digits_value rest (10 * acc + Z.of_N (code c - 48))
  end.

(** The integer part of [NUMBER_RE]: [0] or a run of digits not starting
    with [0]. *)
Definition int_part (s : string) : option (string * string) :=
  match s with
  | String c rest =>
      if Ascii.eqb c "0"%char then Some ("0", rest)
      else if is_digit c then Some (span_digits s)
      else None
  | EmptyString => None
  end.

(** [(\.\d+)?] *)
Definition frac_part (s : string) : string * string :=
  match s with
  | String c rest =>
      if Ascii.eqb c "."%char then
        match span_digits rest with
        | (EmptyString, _) => (EmptyString, s)
        | (ds, tl) => (String c ds, tl)
        end
      else (EmptyString, s)
  | EmptyString => (EmptyString, s)
  end.

(** [([eE][-+]?\d+)?] *)
Definition exp_part (s : string) : string * string :=
  match s with
  | String e rest =>
      if Ascii.eqb e "e"%char || Ascii.eqb e "E"%char then
        let '(sign, rest') :=
          match rest with
          | String g rest'' =>
              if Ascii.eqb g "-"%char || Ascii.eqb g "+"%char
              then (String g EmptyString, rest'')
              else (EmptyString, rest)
          | EmptyString => (EmptyString, rest)
          end in
        match span_digits rest' with
        | (EmptyString, _) => (EmptyString, s)
        | (ds, tl) => (String e (sign ++ ds), tl)
        end
      else (EmptyString, s)
  | EmptyString => (EmptyString, s)
  end.

(** [match_number]: the value and what follows it. *)
Definition match_number (s : string) : option (json * string) :=
  let '(neg, s1) :=
    match s with
    | String c rest => if Ascii.eqb c "-"%char then (true, rest) else (false, s)
    | EmptyString => (false, s)
    end in
  match int_part s1 with
  | None => None
  | Some (ds, s2) =>
      let (frac, s3) := frac_part s2 in
      let (exp, s4) := exp_part s3 in
      let sign := if neg then "-" else "" in
      match frac, exp with
      | EmptyString, EmptyString =>
          let n := digits_value ds 0 in
          Some (JInt (if neg then (- n)%Z else n), s4)
      | _, _ => Some (JFloat (sign ++ ds ++ frac ++ exp), s4)
      end
  end.

Fixpoint strip_prefix (p s : string) : option string :=
  match p with
  | EmptyString => Some s
  | String a p' =>
      match s with
      | String b s' => if Ascii.eqb a b then strip_prefix p' s' else None
      | EmptyString => None
      end
  end.

(** The constants of [scan_once], tried in its order around the number. *)
Definition scan_constant (s : string) (pos : nat)
  : result (json * (string * nat)) :=
  let try (word : string) (v : json) (k : result (json * (string * nat))) :=
    match strip_prefix word s with
    | Some rest => Ok (v, (rest, pos + String.length word))
    | None => k
    end in
  try "null" JNull
    (try "true" (JBool true)
       (try "false" (JBool false)
          match match_number s with
          | Some (v, rest) =>
              Ok (v, (rest, pos + (String.length s - String.length rest)))
          | None =>
              try "NaN" (JFloat "NaN")
                (try "Infinity" (JFloat "Infinity")
                   (try "-Infinity" (JFloat "-Infinity")
                      (decode_error "Expecting value" pos)))
          end)).

(** [scan_once], with the loops of [JSONObject] and [JSONArray]. *)
Fixpoint scan_once (fuel : nat) (s : string) (pos : nat)
  : result (json * (string * nat)) :=
  match fuel with
  | O => Raise RecursionError
  | S fuel' =>
      match s with
      | EmptyString => decode_error "Expecting value" pos
      | String c rest =>
          if Ascii.eqb c dquote then
            r <- scanstring (S (String.length rest)) pos rest (S pos) "" ;;
            Ok (JStr (fst r), snd r)
          else if Ascii.eqb c "{"%char then
            let (s1, p1) := skip_ws rest (S pos) in
            match s1 with
            | String c1 rest1 =>
                if Ascii.eqb c1 "}"%char then Ok (JObj [], (rest1, S p1))
                else if Ascii.eqb c1 dquote
                then object_members fuel' rest1 (S p1) []
                else decode_error
                       "Expecting property name enclosed in double quotes" p1
            | EmptyString =>
                decode_error
                  "Expecting property name enclosed in double quotes" p1
            end
          else if Ascii.eqb c "["%char then
            let (s1, p1) := skip_ws rest (S pos) in
            match s1 with
            | String c1 rest1 =>
                if Ascii.eqb c1 "]"%char then Ok (JArr [], (rest1, S p1))
                else array_items fuel' s1 p1 []
            | EmptyString => decode_error "Expecting value" p1
            end
          else scan_constant s pos
      end
  end

with object_members (fuel : nat) (s : string) (pos : nat) (pairs : dict)
  : result (json * (string * nat)) :=
  match fuel with
  | O => Raise RecursionError
  | S fuel' =>
      k <- scanstring (S (String.length s)) (pos - 1) s pos "" ;;
      let (s2, p2) := skip_ws (fst (snd k)) (snd (snd k)) in
      match s2 with
      | String c2 rest2 =>
          if Ascii.eqb c2 ":"%char then
            let (s3, p3) := skip_ws rest2 (S p2) in
            v <- scan_once fuel' s3 p3 ;;
            let pairs' := dict_set (fst k) (fst v) pairs in
            let (s5, p5) := skip_ws (fst (snd v)) (snd (snd v)) in
            match s5 with
            | String c5 rest5 =>
                if Ascii.eqb c5 "}"%char then Ok (JObj pairs', (rest5, S p5))
                else if Ascii.eqb c5 ","%char then
                  let (s6, p6) := skip_ws rest5 (S p5) in
                  match s6 with
                  | String c6 rest6 =>
                      if Ascii.eqb c6 dquote
                      then object_members fuel' rest6 (S p6) pairs'
                      else decode_error
                             "Expecting property name enclosed in double quotes"
                             p6
                  | EmptyString =>
                      decode_error
                        "Expecting property name enclosed in double quotes" p6
                  end
                else decode_error "Expecting ',' delimiter" p5
            | EmptyString => decode_error "Expecting ',' delimiter" p5
            end
          else decode_error "Expecting ':' delimiter" p2
      | EmptyString => decode_error "Expecting ':' delimiter" p2
      end
  end

with array_items (fuel : nat) (s : string) (pos : nat) (values : list json)
  : result (json * (string * nat)) :=
  match fuel with
  | O => Raise RecursionError
  | S fuel' =>
      v <- scan_once fuel' s pos ;;
      let values' := (values ++ [fst v])%list in
      let (s2, p2) := skip_ws (fst (snd v)) (snd (snd v)) in
      match s2 with
      | String c2 rest2 =>
          if Ascii.eqb c2 "]"%char then Ok (JArr values', (rest2, S p2))
          else if Ascii.eqb c2 ","%char then
            let (s3, p3) := skip_ws rest2 (S p2) in
            array_items fuel' s3 p3 values'
          else decode_error "Expecting ',' delimiter" p2
      | EmptyString => decode_error "Expecting ',' delimiter" p2
      end
  end.

End Decoder.

(** [json.loads(doc)] *)
Definition loads (doc : string) : result json :=
  let (s0, p0) := skip_ws doc 0 in
  v <- scan_once doc (2 * String.length doc + 2) s0 p0 ;;
  let (s1, p1) := skip_ws (fst (snd v)) (snd (snd v)) in
  match s1 with
  | EmptyString => Ok (fst v)
  | String _ _ => Raise (JSONDecodeError "Extra data" doc p1)
  end.

Definition hex_digit (n : N) : ascii :=
  if (n <? 10)%N then ascii_of_N (48 + n) else ascii_of_N (87 + n).

(** The replacement of one character by [ESCAPE] and [ESCAPE_DCT] of
    [json/encoder.py]. *)
Definition escape_char (c : ascii) : string :=
  let n := code c in
  let esc (x : ascii) := String backslash (String x EmptyString) in
  if (n =? 34)%N then esc dquote
  else if (n =? 92)%N then esc backslash
  else if (n =? 10)%N then esc "n"%char
  else if (n =? 13)%N then esc "r"%char
  else if (n =? 9)%N then esc "t"%char
  else if (n =? 8)%N then esc "b"%char
  else if (n =? 12)%N then esc "f"%char
  else if (n <? 32)%N then
    String backslash
      (String "u"%char
         (String "0"%char
            (String "0"%char
               (String (hex_digit (n / 16))
                  (String (hex_digit (n mod 16)) EmptyString)))))
  else String c EmptyString.

Fixpoint escape (s : string) : string :=
  match s with
  | EmptyString => EmptyString
  | String c rest => escape_char c ++ escape rest
  end.

(** [encode_basestring] *)
Definition encode_str (s : string) : string :=
  String dquote (escape s ++ String dquote EmptyString).

Definition string_of_Z (n : Z) : string :=
  NilZero.string_of_int (Z.to_int n).

(** [json.dumps(v, ensure_ascii=False)] with the default separators. *)
Fixpoint dumps (v : json) : string :=
  match v with
  | JNull => "null"
  | JBool true => "true"
  | JBool false => "false"
  | JInt n => string_of_Z n
  | JFloat lit => lit
  | JStr s => encode_str s
  | JArr items => "[" ++ String.concat ", " (map dumps items) ++ "]"
  | JObj fields =>
      "{" ++ String.concat ", "
               (map (fun kv => let '(k, x) := kv in
                               encode_str k ++ ": " ++ dumps x) fields)
          ++ "}"
  end.

End RefJson.

#[export] Instance ref_codec : JsonCodec :=
  {| json_loads := RefJson.loads; json_dumps := RefJson.dumps |}.

(** JSON text is written below with ['] standing for the double quote. *)
Definition json_text (s : string) : string :=
  let fix go (s : string) : string :=
    match s with
    | EmptyString => EmptyString
    | String c rest =>
        String (if Ascii.eqb c "'"%char then RefJson.dquote else c) (go rest)
    end in
  go s.

(* ===================================================================== *)
(** ** The module object and its methods *)
(* ===================================================================== *)

(** The object behind [self._dataHandler]: the converted dataset and
    whether [close()] was called on it. *)
Record DataHandler : Type := {
  data : string;
  closed : bool
}.

(** The attributes of [self] the methods read or write. *)
Record OpenAIModule : Type := {
  _api_key : string;
  _base_url : string;
  _model_name : string;
  _dataHandler : option DataHandler
}.

Definition set_dataHandler (h : option DataHandler) (self : OpenAIModule)
  : OpenAIModule :=
  {| _api_key := _api_key self;
     _base_url := _base_url self;
     _model_name := _model_name self;
     _dataHandler := h |}.

(** A method: it reads and writes [self] and returns or raises. *)
Definition M (A : Type) : Type := OpenAIModule -> result A * OpenAIModule.

Definition ret {A : Type} (a : A) : M A := fun self => (Ok a, self).

Definition raise {A : Type} (e : exn) : M A := fun self => (Raise e, self).

Definition lift {A : Type} (r : result A) : M A := fun self => (r, self).

Definition get_self : M OpenAIModule := fun self => (Ok self, self).

Definition mbind {A B : Type} (m : M A) (k : A -> M B) : M B :=
  fun self =>
    match m self with
    | (Ok a, self') => k a self'
    | (Raise e, self') => (Raise e, self')
    end.

Declare Scope method_scope.
Delimit Scope method_scope with method.
Notation "x <- m ;; k" := (mbind m (fun x => k))
  (at level 61, m at next level, right associativity) : method_scope.

(** [self._dataHandler.close()] *)
Definition close_dataHandler : M unit :=
  fun self =>
    match _dataHandler self with
    | Some h =>
        (Ok tt, set_dataHandler (Some {| data := data h; closed := true |}) self)
    | None => (Raise (AttributeError "NoneType" "close"), self)
    end.

(** *** [os.path] (posixpath) *)

Fixpoint ends_with_sep (s : string) : bool :=
  match s with
  | EmptyString => false
  | String c EmptyString => Ascii.eqb c "/"%char
  | String _ rest => ends_with_sep rest
  end.

Definition starts_with_sep (s : string) : bool :=
  match s with
  | String c _ => Ascii.eqb c "/"%char
  | EmptyString => false
  end.

(** [os.path.join(a, b)] *)
Definition os_path_join (a b : string) : string :=
  if starts_with_sep b then b
  else if (String.eqb a "" || ends_with_sep a)%bool then a ++ b
  else a ++ "/" ++ b.

Fixpoint basename_from (p : string) (acc : string) : string :=
  match p with
  | EmptyString => acc
  | String c rest =>
      if Ascii.eqb c "/"%char then basename_from rest ""
      else basename_from rest (acc ++ String c EmptyString)
  end.

(** [os.path.basename(p)]: what follows the last [/]. *)
Definition os_path_basename (p : string) : string := basename_from p "".

(** *** [bytes.decode('utf-8')] *)

Definition in_range (lo hi : N) (c : ascii) : bool :=
  ((lo <=? N_of_ascii c) && (N_of_ascii c <=? hi))%N.

Definition cont (c : ascii) : bool := in_range 128 191 c.

(** Well-formed UTF-8: no overlong form, no surrogate, nothing above
    U+10FFFF. *)
Fixpoint utf8_valid (s : string) : bool :=
  match s with
  | EmptyString => true
  | String b0 rest =>
      if in_range 0 127 b0 then utf8_valid rest
      else if in_range 194 223 b0 then
        match rest with
        | String b1 r1 => cont b1 && utf8_valid r1
        | _ => false
        end
      else if in_range 224 239 b0 then
        match rest with
        | String b1 (String b2 r2) =>
            (if in_range 224 224 b0 then in_range 160 191 b1
             else if in_range 237 237 b0 then in_range 128 159 b1
             else cont b1)
            && cont b2 && utf8_valid r2
        | _ => false
        end
      else if in_range 240 244 b0 then
        match rest with
        | String b1 (String b2 (String b3 r3)) =>
            (if in_range 240 240 b0 then in_range 144 191 b1
             else if in_range 244 244 b0 then in_range 128 143 b1
             else cont b1)
            && cont b2 && cont b3 && utf8_valid r3
        | _ => false
        end
      else false
  end.

(** [c.decode('utf-8')] *)
Definition py_decode (c : string) : result string :=
  if utf8_valid c then Ok c else Raise UnicodeDecodeError.

(** [[c.decode('utf-8') for c in chunks]] *)
Fixpoint decode_chunks (chunks : list string) : result (list string) :=
  match chunks with
  | [] => Ok []
  | c :: rest =>
      t <- py_decode c ;;
      ts <- decode_chunks rest ;;
      Ok (t :: ts)
  end.

(** *** [requests] *)

(** One value of a [files=] part. *)
Inductive part : Type :=
| PartText (s : string)
| PartFile (h : option DataHandler).

(** What is sent as the body. *)
Inductive payload : Type :=
| Files (files : list (string * (option string * part * option string)))
| Json (data : json).

(** What the methods observe of a response [r]: [r.status_code], the chunks
    of [r.iter_content(None)] and the outcome of [r.json()]. *)
Record Response : Type := {
  status_code : Z;
  iter_content : list string;
  r_json : result json
}.

(** [requests.post(url, headers=, files= | json=)] and
    [requests.get(url, headers=)]; [Raise] is a failure of the transport. *)
Class Requests : Type := {
  requests_post : string -> list (string * string) -> payload -> result Response;
  requests_get : string -> list (string * string) -> result Response
}.

(** The inherited method [FileHandlerBase.get_finetune_data]. *)
Class FileHandlerBase : Type := {
  get_finetune_data : string -> M unit
}.

Section Lifecycle.
Context {http : Requests} {base : FileHandlerBase}.
Local Open Scope method_scope.

(** ['\n'.join([c.decode('utf-8') for c in r.iter_content(None)])] *)
Definition error_body (r : Response) : result string :=
  (texts <- decode_chunks (iter_content r) ;;
   Ok (String.concat newline texts))%py.

(** [raise requests.RequestException(<the joined body>)] *)
Definition raise_for_body {A : Type} (r : Response) : M A :=
  msg <- lift (error_body r) ;;
  raise (RequestException msg).

Definition _upload_train_file (train_file : string) : M json :=
  self <- get_self ;;
  let headers := [("Authorization", "Bearer " ++ _api_key self)] in
  let url := os_path_join (_base_url self) "files" in
  _ <- get_finetune_data train_file ;;
  self' <- get_self ;;
  let file_object :=
    [("purpose", (None, PartText "fine-tune", None));
     ("file", (Some (os_path_basename train_file),
               PartFile (_dataHandler self'),
               Some "application/json"))] in
  r <- lift (requests_post url headers (Files file_object)) ;;
  if negb (status_code r =? 200)%Z then raise_for_body r
  else
    _ <- close_dataHandler ;;
    body <- lift (r_json r) ;;
    lift (py_getitem body "id").

Definition _create_finetuning_job (train_model train_file_id : json)
  (kw : dict) : M (json * json) :=
  self <- get_self ;;
  let url := os_path_join (_base_url self) "fine_tuning/jobs" in
  let headers :=
    [("Content-Type", "application/json");
     ("Authorization", "Bearer " ++ _api_key self)] in
  let data := [("model", train_model); ("training_file", train_file_id)] in
  let data := if (0 <? List.length kw)%nat then dict_update data kw else data in
  r <- lift (requests_post url headers (Json (JObj data))) ;;
  if negb (status_code r =? 200)%Z then raise_for_body r
  else
    body <- lift (r_json r) ;;
    fine_tuning_job_id <- lift (py_getitem body "id") ;;
    body' <- lift (r_json r) ;;
    status <- lift (py_getitem body' "status") ;;
    ret (fine_tuning_job_id, status).

Definition _query_finetuning_job (fine_tuning_job_id : string)
  : M (json * json) :=
  self <- get_self ;;
  let fine_tune_url :=
    os_path_join (_base_url self) ("fine_tuning/jobs/" ++ fine_tuning_job_id) in
  let headers := [("Authorization", "Bearer " ++ _api_key self)] in
  r <- lift (requests_get fine_tune_url headers) ;;
  if negb (status_code r =? 200)%Z then raise_for_body r
  else
    body <- lift (r_json r) ;;
    status <- lift (py_getitem body "status") ;;
    let fine_tuned_model := JNull in
    low <- lift (py_lower status) ;;
    fine_tuned_model <-
      (if String.eqb low "succeeded"
       then body' <- lift (r_json r) ;; lift (py_getitem body' "fine_tuned_model")
       else ret fine_tuned_model) ;;
    ret (fine_tuned_model, status).

Definition _create_deployment : M (string * string) :=
  self <- get_self ;;
  ret (_model_name self, "RUNNING").

Definition _query_deployment (deployment_id : json) : M string :=
  ret "RUNNING".

End Lifecycle.

(* ===================================================================== *)
(** ** Reference collaborators *)
(* ===================================================================== *)

(** Modelled from the spec: [FileHandlerBase.get_finetune_data] is not among
    the sources.  The design document says the converted dataset is
    "written to a transient location before upload" and that a failed
    conversion fails the call: the method converts the file and leaves an
    open handle on the result in [self._dataHandler]. *)
Definition converting_get_finetune_data {codec : JsonCodec} {fs : FileSystem}
  (filepath : string) : M unit :=
  fun self =>
    match _convert_file_format filepath with
    | Ok text =>
        (Ok tt, set_dataHandler (Some {| data := text; closed := false |}) self)
    | Raise e => (Raise e, self)
    end.

#[export] Instance converting_base {codec : JsonCodec} {fs : FileSystem}
  : FileHandlerBase :=
  {| get_finetune_data := converting_get_finetune_data |}.

(** A file system holding one file. *)
Definition one_file (path text : string) : FileSystem :=
  {| read_text := fun p => if String.eqb p path then Some text else None |}.

(** A file system holding two files. *)
Definition two_files (path1 text1 path2 text2 : string) : FileSystem :=
  {| read_text := fun p =>
       if String.eqb p path1 then Some text1
       else if String.eqb p path2 then Some text2
       else None |}.

(** A response with status [code] and body [body], as [requests] presents
    it when the body was read in full: at most one chunk. *)
Definition response_of (code : Z) (body : string) : Response :=
  {| status_code := code;
     iter_content := if String.eqb body "" then [] else [body];
     r_json := (text <- py_decode body ;; json_loads text)%py |}.

(** A server that answers every request with [r]. *)
Definition answering (r : Response) : Requests :=
  {| requests_post := fun _ _ _ => Ok r;
     requests_get := fun _ _ => Ok r |}.

Definition self0 : OpenAIModule :=
  {| _api_key := "sk-test";
     _base_url := "https://api.openai.com/v1";
     _model_name := "gpt-3.5-turbo";
     _dataHandler := None |}.

(* ===================================================================== *)
(** ** What the conversion computes *)
(* ===================================================================== *)

(** The pieces below state the result of the loops in closed form. *)

Definition is_dict (v : json) : Prop := exists d, v = JObj d.

(** [message.get("role", "")] and [message.get("content", "")] of a dict. *)
Definition field_or_empty (key : string) (message : json) : json :=
  match message with
  | JObj d =>
      match dict_get key d with
      | Some v => v
      | None => JStr ""
      end
  | _ => JStr ""
  end.

Definition role_of : json -> json := field_or_empty "role".
Definition content_of : json -> json := field_or_empty "content".

(** The role of the message is one of the three. *)
Definition recognized (message : json) : bool :=
  py_in (role_of message) recognized_roles.

(** What is appended for a message that stays. *)
Definition kept_form (message : json) : json :=
  JObj [("role", role_of message); ("content", content_of message)].

(** [ex.get("messages", [])] when it is a list. *)
Definition messages_of (ex : json) : list json :=
  match ex with
  | JObj d =>
      match dict_get "messages" d with
      | Some (JArr items) => items
      | _ => []
      end
  | _ => []
  end.

(** The record written for [ex]. *)
Definition converted (ex : json) : json :=
  JObj [("messages", JArr (map kept_form (filter recognized (messages_of ex))))].

(** A JSON object whose [messages], when present, is an array of objects. *)
Definition well_shaped (ex : json) : Prop :=
  exists d,
    ex = JObj d /\
    (dict_get "messages" d = None \/
     exists items, dict_get "messages" d = Some (JArr items) /\ Forall is_dict items).

(** Line [i] parses to record [i]. *)
Definition parses_to {codec : JsonCodec} (lines : list string)
  (records : list json) : Prop :=
  Forall2 (fun line ex => json_loads line = Ok ex) lines records.

(** The number of the first line [json.loads] rejects, counting from [n]. *)
Fixpoint first_malformed {codec : JsonCodec} (lines : list string) (n : nat)
  : option nat :=
  match lines with
  | [] => None
  | line :: rest =>
      match json_loads line with
      | Ok _ => first_malformed rest (S n)
      | Raise _ => Some n
      end
  end.

(** Python's [==] on two dicts whose values are compared as they stand:
    the same keys with the same values, in any order. *)
Definition dict_equiv (d d' : dict) : Prop :=
  forall k, dict_get k d = dict_get k d'.

Definition message_equiv (m m' : json) : Prop :=
  exists d d', m = JObj d /\ m' = JObj d' /\ dict_equiv d d'.

(** Two records with the same messages in the same order. *)
Definition record_equiv (ex ex' : json) : Prop :=
  exists d d' items items',
    ex = JObj d /\ ex' = JObj d' /\
    dict_get "messages" d = Some (JArr items) /\
    dict_get "messages" d' = Some (JArr items') /\
    Forall2 message_equiv items items' /\
    (forall k, k <> "messages" -> dict_get k d = dict_get k d').

(** A message that is a [{role, content}] pair with a recognized role. *)
Definition wf_message (m : json) : Prop :=
  exists d r c,
    m = JObj d /\
    dict_get "role" d = Some (JStr r) /\ In r recognized_roles /\
    dict_get "content" d = Some c /\
    (forall k, k <> "role" -> k <> "content" -> dict_get k d = None).

(** A record that consists only of such messages. *)
Definition wf_record (ex : json) : Prop :=
  exists d items,
    ex = JObj d /\
    dict_get "messages" d = Some (JArr items) /\ Forall wf_message items /\
    (forall k, k <> "messages" -> dict_get k d = None).

(** A message as the conversion writes it. *)
Definition canonical (m : json) : Prop :=
  exists r c,
    m = JObj [("role", r); ("content", c)] /\ py_in r recognized_roles = true.

Definition canonical_record (ex : json) : Prop :=
  exists items, ex = JObj [("messages", JArr items)] /\ Forall canonical items.

(* ===================================================================== *)
(** ** What the remote operations do *)
(* ===================================================================== *)


Definition is_raise {A : Type} (res : result A) : Prop :=
  exists e, res = Raise e.

(** [self._dataHandler] is an open handle. *)
Definition handler_open (self : OpenAIModule) : Prop :=
  exists h, _dataHandler self = Some h /\ closed h = false.

Definition handler_closed (self : OpenAIModule) : Prop :=
  exists h, _dataHandler self = Some h /\ closed h = true.

(** The requests the three methods send. *)
Definition bearer (self : OpenAIModule) : string * string :=
  ("Authorization", "Bearer " ++ _api_key self).

Definition upload_files (train_file : string) (self : OpenAIModule)
  : payload :=
  Files [("purpose", (None, PartText "fine-tune", None));
         ("file", (Some (os_path_basename train_file),
                   PartFile (_dataHandler self),
                   Some "application/json"))].

Definition job_data (train_model train_file_id : json) (kw : dict) : payload :=
  Json (JObj (if (0 <? List.length kw)%nat
              then dict_update [("model", train_model);
                                ("training_file", train_file_id)] kw
              else [("model", train_model); ("training_file", train_file_id)])).

Section Exchanges.
Context {http : Requests} {base : FileHandlerBase}.

(** [get_finetune_data] succeeded, leaving [self1], and the server answered
    [r] to the upload. *)
Definition upload_answered (train_file : string) (self self1 : OpenAIModule)
  (r : Response) : Prop :=
  get_finetune_data train_file self = (Ok tt, self1) /\
  requests_post (os_path_join (_base_url self) "files") [bearer self]
    (upload_files train_file self1) = Ok r.

Definition create_answered (train_model train_file_id : json) (kw : dict)
  (self : OpenAIModule) (r : Response) : Prop :=
  requests_post (os_path_join (_base_url self) "fine_tuning/jobs")
    [("Content-Type", "application/json"); bearer self]
    (job_data train_model train_file_id kw) = Ok r.

Definition query_answered (fine_tuning_job_id : string) (self : OpenAIModule)
  (r : Response) : Prop :=
  requests_get
    (os_path_join (_base_url self) ("fine_tuning/jobs/" ++ fine_tuning_job_id))
    [bearer self] = Ok r.

End Exchanges.




(* ===================================================================== *)
(** ** Concrete inputs *)
(* ===================================================================== *)

(** The two-line file of the design document's end-to-end scenario. *)
Definition two_lines : string :=
  json_text "{'messages':[{'role':'system','content':'S'},{'role':'user','content':'Hi'},{'role':'tool','content':'X'},{'role':'assistant','content':'Hello'}]}"
  ++ newline ++
  json_text "{'messages':[{'role':'user','content':'Q'},{'role':'assistant','content':'A'}]}".

Definition chat (role content : string) : json :=
  JObj [("role", JStr role); ("content", JStr content)].

Definition two_records : list json :=
  [JObj [("messages",
          JArr [chat "system" "S"; chat "user" "Hi";
                chat "tool" "X"; chat "assistant" "Hello"])];
   JObj [("messages", JArr [chat "user" "Q"; chat "assistant" "A"])]].

(** A file whose only line is valid JSON with a message that is a string. *)
Definition string_message_line : string := json_text "{'messages': ['hi']}".

(** Two files with the same malformed line, first and second. *)
Definition malformed_first : string := "oops" ++ newline.
Definition malformed_second : string := "{}" ++ newline ++ "oops" ++ newline.

(** A record whose message lists [content] before [role], the line it is
    read from and the line the conversion writes for it. *)
Definition content_first : list json :=
  [JObj [("messages",
          JArr [JObj [("content", JStr "Q"); ("role", JStr "user")]])]].

Definition content_first_line : string :=
  json_text "{'messages': [{'content': 'Q', 'role': 'user'}]}".

Definition role_first_line : string :=
  json_text "{'messages': [{'role': 'user', 'content': 'Q'}]}".

Definition before_and_after : FileSystem :=
  two_files "train.jsonl" content_first_line "converted.jsonl" role_first_line.

(* ===================================================================== *)
(** ** The operations on concrete exchanges *)
(* ===================================================================== *)

(** The base class converting the two-line file. *)
Definition base0 : FileHandlerBase :=
  @converting_base ref_codec (one_file "train.jsonl" two_lines).

(** [self0] after [get_finetune_data("train.jsonl")]. *)
Definition prepared0 : OpenAIModule :=
  snd (@get_finetune_data base0 "train.jsonl" self0).

Definition bad_request : Response := response_of 400 "bad request".


Definition created_job : Response :=
  response_of 201 (json_text "{'id': 'ftjob-1', 'status': 'queued'}").

Definition queued_job : Response :=
  response_of 200 (json_text "{'id': 'ftjob-1', 'status': 'queued'}").

Definition job_without_status : Response :=
  response_of 200 (json_text "{'id': 'ftjob-1'}").

Definition succeeded_job : Response :=
  response_of 200
    (json_text "{'status': 'succeeded', 'fine_tuned_model': 'ft:model-1'}").

Definition running_job : Response :=
  response_of 200
    (json_text "{'status': 'running', 'fine_tuned_model': 'ft:model-1'}").

Definition succeeded_null_model : Response :=
  response_of 200
    (json_text "{'status': 'succeeded', 'fine_tuned_model': null}").

Definition succeeded_no_model : Response :=
  response_of 200 (json_text "{'status': 'Succeeded'}").

(* ===================================================================== *)
(** ** Further inputs and collaborators *)
(* ===================================================================== *)

(** A record in the completion format of the docstring of
    [_upload_train_file]: it has no [messages]. *)
Definition has_no_messages (ex : json) : Prop :=
  exists d, ex = JObj d /\ dict_get "messages" d = None.

(** What is written for a record without messages. *)
Definition empty_record : json := JObj [("messages", JArr [])].

Definition completion_lines : string :=
  json_text "{'prompt': 'p1', 'completion': 'c1'}" ++ newline ++
  json_text "{'prompt': 'p2', 'completion': 'c2'}" ++ newline.

Definition completion_records : list json :=
  [JObj [("prompt", JStr "p1"); ("completion", JStr "c1")];
   JObj [("prompt", JStr "p2"); ("completion", JStr "c2")]].

(** A message with a weight and a capitalised role, one with a null role. *)
Definition weighted_message : json :=
  JObj [("role", JStr "assistant"); ("content", JStr "Paris");
        ("weight", JInt 0)].


(** A transport on which every request fails with [e]. *)
Definition failing (e : exn) : Requests :=
  {| requests_post := fun _ _ _ => Raise e;
     requests_get := fun _ _ => Raise e |}.







(** A body that is not UTF-8, one that is not JSON, a status that is null. *)
Definition binary_chunk : string := String (ascii_of_nat 255) "oops".

Definition binary_error : Response :=
  {| status_code := 500;
     iter_content := ["Internal"; binary_chunk];
     r_json := Raise UnicodeDecodeError |}.

Definition not_json : Response := response_of 200 "OK".

Definition null_status : Response :=
  response_of 200 (json_text "{'status': null}").

Definition no_status : Response :=
  response_of 200 (json_text "{'fine_tuned_model': 'ft:model-1'}").

(** The base class over a file that does not convert. *)
Definition base_malformed : FileHandlerBase :=
  @converting_base ref_codec (one_file "train.jsonl" malformed_second).







(** The open handle on the conversion of the two-line file. *)
Definition handle0 : DataHandler :=
  {| data := String.concat newline
               (map RefJson.dumps (map converted two_records));
     closed := false |}.

Definition refused : exn := ConnectionError "connection refused".


(* ===================================================================== *)
(** ** Tactics *)
(* ===================================================================== *)

Ltac run_method :=
  unfold mbind, get_self, lift, ret, raise, raise_for_body; cbn beta iota zeta.

(** Rewrites the request of the goal with the answer [H] gives for it. *)
Ltac answer H :=
  match goal with
  | |- context [requests_post ?u ?h ?p] =>
      let E := fresh "E" in
      assert (E : requests_post u h p = _) by exact H; rewrite E; clear E
  | |- context [requests_get ?u ?h] =>
      let E := fresh "E" in
      assert (E : requests_get u h = _) by exact H; rewrite E; clear E
  end.

Ltac no_other_key :=
  let k := fresh "k" in
  intros k; intros; cbn [dict_get];
  repeat match goal with
         | |- context [String.eqb ?a k] =>
             destruct (String.eqb_spec a k); [congruence|]
         end;
  reflexivity.

(* ===================================================================== *)
(** ** Properties of the conversion *)
(* ===================================================================== *)

Section ConversionFacts.
Context {codec : JsonCodec} {fs : FileSystem}.

Lemma py_get_dict (d : dict) (key : string) :
  py_get (JObj d) key (JStr "") = Ok (field_or_empty key (JObj d)).
Proof. simpl. destruct (dict_get key d); reflexivity. Qed.

Lemma convert_messages_step (d : dict) (rest acc : list json) :
  convert_messages (JObj d :: rest) acc =
  if recognized (JObj d)
  then convert_messages rest (acc ++ [kept_form (JObj d)])%list
  else convert_messages rest acc.
Proof.
  cbn [convert_messages]. rewrite !py_get_dict. reflexivity.
Qed.

(** On dicts the inner loop is a filter followed by a projection. *)
Lemma convert_messages_dicts (messages : list json) :
  Forall is_dict messages ->
  forall acc,
    convert_messages messages acc =
    Ok (acc ++ map kept_form (filter recognized messages))%list.
Proof.
  induction 1 as [|m rest [d ->] _ IH]; intros acc.
  - simpl. now rewrite app_nil_r.
  - rewrite convert_messages_step. cbn [filter].
    destruct (recognized (JObj d)).
    + rewrite IH. cbn [map]. now rewrite <- app_assoc.
    + apply IH.
Qed.

Lemma convert_example_well_shaped (ex : json) :
  well_shaped ex -> convert_example ex = Ok (converted ex).
Proof.
  intros (d & -> & Hm). unfold convert_example, converted, messages_of.
  cbn [py_get].
  destruct Hm as [Hm | (items & Hm & Hd)]; rewrite Hm; cbn [bind py_iter].
  - reflexivity.
  - now rewrite (convert_messages_dicts items Hd []).
Qed.

Lemma convert_examples_well_shaped (dataset : list json) :
  Forall well_shaped dataset ->
  forall json_strs,
    convert_examples dataset json_strs =
    Ok (json_strs ++ map json_dumps (map converted dataset))%list.
Proof.
  induction 1 as [|ex rest Hex _ IH]; intros json_strs.
  - simpl. now rewrite app_nil_r.
  - cbn [convert_examples]. rewrite (convert_example_well_shaped ex Hex).
    cbn [bind]. rewrite IH. cbn [map]. now rewrite <- app_assoc.
Qed.

Lemma load_lines_parses (lines : list string) (records : list json) :
  parses_to lines records <-> load_lines lines = Ok records.
Proof.
  split.
  - induction 1 as [|line ex lines records H _ IH]; [reflexivity|].
    cbn [load_lines]. rewrite H. cbn [bind]. now rewrite IH.
  - revert records. induction lines as [|line lines IH]; intros records H.
    + inversion H. constructor.
    + cbn [load_lines] in H.
      destruct (json_loads line) as [ex|e] eqn:E; [|discriminate].
      cbn [bind] in H.
      destruct (load_lines lines) as [exs|e] eqn:E'; [|discriminate].
      inversion H. constructor; [exact E | now apply IH].
Qed.

Lemma parses_to_length (lines : list string) (records : list json) :
  parses_to lines records -> List.length records = List.length lines.
Proof. intros H. symmetry. exact (Forall2_length H). Qed.

(** The first line that does not parse decides the outcome of the read. *)
Lemma load_lines_first_failure (before after : list string) (line : string)
  (records : list json) (e : exn) :
  parses_to before records ->
  json_loads line = Raise e ->
  load_lines (before ++ line :: after) = Raise e.
Proof.
  induction 1 as [|l ex before records H _ IH]; intros Hbad.
  - cbn [app load_lines]. now rewrite Hbad.
  - cbn [app load_lines]. rewrite H. cbn [bind]. now rewrite IH.
Qed.

(** The strings of the outer loop are the serialised records. *)
Lemma convert_examples_dataset (dataset : list json) :
  forall json_strs,
    convert_examples dataset json_strs =
    (out <- convert_dataset dataset ;;
     Ok (json_strs ++ map json_dumps out)%list)%py.
Proof.
  induction dataset as [|ex rest IH]; intros json_strs.
  - simpl. now rewrite app_nil_r.
  - cbn [convert_examples convert_dataset].
    destruct (convert_example ex) as [lineEx|e]; [|reflexivity].
    cbn [bind]. rewrite IH.
    destruct (convert_dataset rest) as [out|e]; [|reflexivity].
    cbn [bind map]. now rewrite <- app_assoc.
Qed.

(** The file conversion in terms of the records of its lines. *)
Lemma convert_file_format_records (filepath text : string)
  (records : list json) :
  read_text filepath = Some text ->
  parses_to (readlines (universal_newlines text)) records ->
  _convert_file_format filepath =
    (out <- convert_dataset records ;;
     Ok (String.concat newline (map json_dumps out)))%py.
Proof.
  intros Hread Hparse. unfold _convert_file_format. rewrite Hread.
  apply load_lines_parses in Hparse. rewrite Hparse. cbn [bind].
  rewrite convert_examples_dataset.
  now destruct (convert_dataset records).
Qed.

Lemma convert_dataset_well_shaped (dataset : list json) :
  Forall well_shaped dataset ->
  convert_dataset dataset = Ok (map converted dataset).
Proof.
  induction 1 as [|ex rest Hex _ IH]; [reflexivity|].
  cbn [convert_dataset]. rewrite (convert_example_well_shaped ex Hex), IH.
  reflexivity.
Qed.

(** *** The shape of what the conversion writes *)

Lemma convert_messages_canonical (items : list json) :
  Forall canonical items ->
  forall acc, convert_messages items acc = Ok (acc ++ items)%list.
Proof.
  induction 1 as [|m rest (r & c & -> & Hr) _ IH]; intros acc.
  - simpl. now rewrite app_nil_r.
  - rewrite convert_messages_step. unfold recognized, role_of, kept_form.
    cbn. cbn in Hr. rewrite Hr, IH. now rewrite <- app_assoc.
Qed.

Lemma convert_messages_writes_canonical (messages : list json) :
  forall acc kept,
    convert_messages messages acc = Ok kept ->
    Forall canonical acc -> Forall canonical kept.
Proof.
  induction messages as [|m rest IH]; intros acc kept H Hacc.
  - inversion H. now subst.
  - destruct m as [| | | | |items|d]; try discriminate H.
    rewrite convert_messages_step in H.
    destruct (recognized (JObj d)) eqn:Hrec.
    + apply (IH _ _ H). apply Forall_app. split; [exact Hacc|].
      constructor; [|constructor].
      exists (role_of (JObj d)), (content_of (JObj d)). split; [reflexivity|].
      exact Hrec.
    + exact (IH _ _ H Hacc).
Qed.

Lemma convert_example_writes_canonical (ex lineEx : json) :
  convert_example ex = Ok lineEx -> canonical_record lineEx.
Proof.
  unfold convert_example. intros H.
  destruct (py_get ex "messages" (JArr [])) as [messages|e]; [|discriminate].
  cbn [bind] in H.
  destruct (py_iter messages) as [items|e]; [|discriminate].
  cbn [bind] in H.
  destruct (convert_messages items []) as [kept|e] eqn:E; [|discriminate].
  cbn [bind] in H. inversion H. exists kept. split; [reflexivity|].
  exact (convert_messages_writes_canonical _ _ _ E (Forall_nil _)).
Qed.

Lemma convert_example_canonical (ex : json) :
  canonical_record ex -> convert_example ex = Ok ex.
Proof.
  intros (items & -> & H). unfold convert_example. cbn.
  now rewrite (convert_messages_canonical items H []).
Qed.

Lemma convert_dataset_writes_canonical (dataset : list json) :
  forall out, convert_dataset dataset = Ok out -> Forall canonical_record out.
Proof.
  induction dataset as [|ex rest IH]; intros out H.
  - inversion H. constructor.
  - cbn [convert_dataset] in H.
    destruct (convert_example ex) as [lineEx|e] eqn:E; [|discriminate].
    cbn [bind] in H.
    destruct (convert_dataset rest) as [out'|e]; [|discriminate].
    inversion H. constructor.
    + exact (convert_example_writes_canonical _ _ E).
    + now apply IH.
Qed.

Lemma convert_dataset_canonical (dataset : list json) :
  Forall canonical_record dataset -> convert_dataset dataset = Ok dataset.
Proof.
  induction 1 as [|ex rest Hex _ IH]; [reflexivity|].
  cbn [convert_dataset]. now rewrite (convert_example_canonical ex Hex), IH.
Qed.

(** Converting what a conversion wrote changes nothing. *)
Lemma convert_dataset_twice (dataset out : list json) :
  convert_dataset dataset = Ok out -> convert_dataset out = Ok out.
Proof.
  intros H. apply convert_dataset_canonical.
  exact (convert_dataset_writes_canonical _ _ H).
Qed.

End ConversionFacts.

Section ConversionClaims.
Context {codec : JsonCodec} {fs : FileSystem}.

(** C4 (as amended).  When every line of the file parses to a JSON object
    whose [messages], if present, is an array of objects, the conversion
    succeeds and writes, for each line in order, one record holding the
    messages whose role is [system], [user] or [assistant], in their
    original order and reduced to role and content; the number of records
    written is the number of lines. *)
Theorem convert_file_keeps_recognized_roles
  (filepath text : string) (records : list json) :
  read_text filepath = Some text ->
  parses_to (readlines (universal_newlines text)) records ->
  Forall well_shaped records ->
  _convert_file_format filepath =
    Ok (String.concat newline (map json_dumps (map converted records))) /\
  List.length (map converted records) =
    List.length (readlines (universal_newlines text)).
Proof.
  intros Hread Hparse Hshape. split.
  - unfold _convert_file_format. rewrite Hread.
    apply load_lines_parses in Hparse. rewrite Hparse. cbn [bind].
    rewrite (convert_examples_well_shaped records Hshape []). reflexivity.
  - rewrite length_map. now apply parses_to_length.
Qed.

(** C5 (as amended).  When a line of the file is not valid JSON and the
    lines before it are, the whole conversion raises the error [json.loads]
    raised on that line: nothing is returned, and the error is the one of
    the line's text, wherever the line stands in the file. *)
Theorem malformed_line_fails_conversion
  (filepath text : string) (before after : list string) (line : string)
  (records : list json) (e : exn) :
  read_text filepath = Some text ->
  readlines (universal_newlines text) = (before ++ line :: after)%list ->
  parses_to before records ->
  json_loads line = Raise e ->
  _convert_file_format filepath = Raise e.
Proof.
  intros Hread Hlines Hbefore Hbad.
  unfold _convert_file_format. rewrite Hread, Hlines.
  now rewrite (load_lines_first_failure before after line records e).
Qed.

Lemma wf_message_kept (m : json) :
  wf_message m -> recognized m = true /\ message_equiv m (kept_form m).
Proof.
  intros (d & r & c & -> & Hrole & Hin & Hcontent & Hother).
  unfold recognized, kept_form, role_of, content_of, field_or_empty.
  rewrite Hrole, Hcontent. split.
  - unfold py_in. apply existsb_exists. exists r. split; [exact Hin|].
    apply String.eqb_refl.
  - exists d, [("role", JStr r); ("content", c)].
    split; [reflexivity|]. split; [reflexivity|].
    intros k. cbn [dict_get].
    destruct (String.eqb_spec "role" k) as [<-|Hr]; [exact Hrole|].
    destruct (String.eqb_spec "content" k) as [<-|Hc]; [exact Hcontent|].
    apply Hother; congruence.
Qed.

Lemma wf_messages_kept (items : list json) :
  Forall wf_message items ->
  filter recognized items = items /\
  Forall2 message_equiv items (map kept_form items).
Proof.
  induction 1 as [|m rest Hm _ [IHf IHe]]; [split; constructor|].
  destruct (wf_message_kept m Hm) as [Hrec Heq].
  cbn [filter map]. rewrite Hrec, IHf. split; [reflexivity|].
  now constructor.
Qed.

Lemma wf_message_is_dict (m : json) : wf_message m -> is_dict m.
Proof. intros (d & _ & _ & -> & _). now exists d. Qed.

Lemma wf_record_well_shaped (ex : json) : wf_record ex -> well_shaped ex.
Proof.
  intros (d & items & -> & Hm & Hwf & _). exists d. split; [reflexivity|].
  right. exists items. split; [exact Hm|].
  eapply Forall_impl; [|exact Hwf]. exact wf_message_is_dict.
Qed.

Lemma wf_record_converted (ex : json) :
  wf_record ex -> record_equiv ex (converted ex).
Proof.
  intros (d & items & -> & Hm & Hwf & Hother).
  destruct (wf_messages_kept items Hwf) as [Hf He].
  unfold converted, messages_of. rewrite Hm, Hf.
  exists d, [("messages", JArr (map kept_form items))], items,
    (map kept_form items).
  repeat split; try reflexivity; try assumption.
  intros k Hk. rewrite (Hother k Hk). cbn [dict_get].
  destruct (String.eqb_spec "messages" k); congruence.
Qed.

(** C6.  When the lines of a file parse to records that consist only of
    [{role, content}] messages with a recognized role, the conversion
    succeeds and writes an equivalent dataset: record by record the same
    messages in the same order.  Converting the records written returns
    them unchanged, so the conversion of any file whose lines parse to
    them (the output, read back) equals the first conversion. *)
Theorem conversion_idempotent_on_well_formed (filepath text : string)
  (dataset : list json) :
  read_text filepath = Some text ->
  parses_to (readlines (universal_newlines text)) dataset ->
  Forall wf_record dataset ->
  Forall2 record_equiv dataset (map converted dataset) /\
  _convert_file_format filepath =
    Ok (String.concat newline (map json_dumps (map converted dataset))) /\
  convert_dataset (map converted dataset) = Ok (map converted dataset) /\
  (forall filepath' text',
     read_text filepath' = Some text' ->
     parses_to (readlines (universal_newlines text')) (map converted dataset) ->
     _convert_file_format filepath' = _convert_file_format filepath).
Proof.
  intros Hread Hparse Hwf.
  assert (Hconv : convert_dataset dataset = Ok (map converted dataset)).
  { apply convert_dataset_well_shaped.
    eapply Forall_impl; [|exact Hwf]. exact wf_record_well_shaped. }
  assert (Hfile : _convert_file_format filepath =
            Ok (String.concat newline (map json_dumps (map converted dataset)))).
  { rewrite (convert_file_format_records _ _ _ Hread Hparse), Hconv.
    reflexivity. }
  assert (Htwice := convert_dataset_twice _ _ Hconv).
  split; [|split; [exact Hfile|split; [exact Htwice|]]].
  - clear Hparse Hconv Hfile Htwice.
    induction Hwf as [|ex rest Hex _ IH]; [constructor|].
    cbn [map]. constructor; [now apply wf_record_converted | exact IH].
  - intros filepath' text' Hread' Hparse'.
    rewrite (convert_file_format_records _ _ _ Hread' Hparse'), Htwice.
    now rewrite Hfile.
Qed.


End ConversionClaims.

(** C4, at the two-line file of the end-to-end scenario: the [tool] message
    of the first line is gone, the second line is unchanged. *)
Lemma convert_two_lines :
  @_convert_file_format ref_codec (one_file "train.jsonl" two_lines)
    "train.jsonl" =
    Ok (String.concat newline
          (map RefJson.dumps (map converted two_records))) /\
  List.length (map converted two_records) =
    List.length (readlines (universal_newlines two_lines)).
Proof.
  apply (@convert_file_keeps_recognized_roles ref_codec
           (one_file "train.jsonl" two_lines) "train.jsonl" two_lines
           two_records).
  - reflexivity.
  - repeat constructor.
  - repeat constructor; eexists; (split; [reflexivity|]); right; eexists;
      (split; [reflexivity|]); repeat constructor; eexists; reflexivity.
Defined.

(** C4 as stated fails: this file's only line is valid JSON, and the
    conversion raises on its message, which is a string. *)
Lemma valid_json_line_not_converted :
  @load_lines ref_codec (readlines (universal_newlines string_message_line)) =
    Ok [JObj [("messages", JArr [JStr "hi"])]] /\
  @_convert_file_format ref_codec (one_file "train.jsonl" string_message_line)
    "train.jsonl" = Raise (AttributeError "str" "get").
Proof. split; vm_compute; reflexivity. Qed.

(** C5, at a file whose second line is malformed. *)
Lemma malformed_second_line_fails :
  @_convert_file_format ref_codec (one_file "train.jsonl" malformed_second)
    "train.jsonl" =
    Raise (JSONDecodeError "Expecting value" ("oops" ++ newline) 0).
Proof.
  apply (@malformed_line_fails_conversion ref_codec
           (one_file "train.jsonl" malformed_second) "train.jsonl"
           malformed_second ["{}" ++ newline] [] ("oops" ++ newline)
           [JObj []]).
  - reflexivity.
  - vm_compute. reflexivity.
  - repeat constructor.
  - vm_compute. reflexivity.
Defined.

(** The same malformed line raises the same error as line 1 of one file
    and as line 2 of another. *)
Lemma decode_error_same_on_any_line :
  @_convert_file_format ref_codec (one_file "train.jsonl" malformed_first)
    "train.jsonl" =
    Raise (JSONDecodeError "Expecting value" ("oops" ++ newline) 0) /\
  @_convert_file_format ref_codec (one_file "train.jsonl" malformed_second)
    "train.jsonl" =
    Raise (JSONDecodeError "Expecting value" ("oops" ++ newline) 0).
Proof. split; vm_compute; reflexivity. Qed.

(** C5 as stated fails: the error of a failed conversion does not name the
    offending line.  No reading [line_of] of the error gives, for every
    file, the number of its first malformed line: the files
    [malformed_first] and [malformed_second] fail with the same error, on
    line 1 and on line 2. *)
Lemma error_does_not_name_the_line :
  ~ exists line_of : exn -> nat,
      forall text n e,
        @first_malformed ref_codec (readlines (universal_newlines text)) 1
          = Some n ->
        @_convert_file_format ref_codec (one_file "train.jsonl" text)
          "train.jsonl" = Raise e ->
        line_of e = n.
Proof.
  intros [line_of H].
  destruct decode_error_same_on_any_line as [H1 H2].
  assert (E1 := H malformed_first 1 _ eq_refl H1).
  assert (E2 := H malformed_second 2 _ eq_refl H2).
  rewrite E1 in E2. discriminate.
Qed.

(** C6, at a record whose message is written [content] first: the
    conversion writes it [role] first, and converting what was written
    gives the same text. *)
Lemma conversion_idempotent_content_first :
  @_convert_file_format ref_codec before_and_after "train.jsonl" =
    Ok role_first_line /\
  @_convert_file_format ref_codec before_and_after "converted.jsonl" =
    @_convert_file_format ref_codec before_and_after "train.jsonl".
Proof.
  assert (Hwf : Forall wf_record content_first).
  { repeat constructor.
    eexists; eexists; split; [reflexivity|]; split; [reflexivity|];
      split; [|no_other_key].
    repeat constructor.
    exists [("content", JStr "Q"); ("role", JStr "user")], "user", (JStr "Q").
    repeat split; [simpl; tauto | no_other_key]. }
  destruct (@conversion_idempotent_on_well_formed ref_codec before_and_after
              "train.jsonl" content_first_line content_first
              eq_refl ltac:(repeat constructor) Hwf)
    as (_ & Hfile & _ & Hagain).
  split.
  - rewrite Hfile. vm_compute. reflexivity.
  - apply (Hagain "converted.jsonl" role_first_line eq_refl).
    repeat constructor.
Defined.


(* ===================================================================== *)
(** ** Properties of the remote operations *)
(* ===================================================================== *)

Section LifecycleFacts.
Context {http : Requests} {base : FileHandlerBase}.

Lemma not_200 (r : Response) :
  status_code r <> 200%Z -> negb (status_code r =? 200)%Z = true.
Proof. intros H. apply negb_true_iff. now apply Z.eqb_neq. Qed.

Lemma is_200 (r : Response) :
  status_code r = 200%Z -> negb (status_code r =? 200)%Z = false.
Proof. intros ->. reflexivity. Qed.

(** *** Upload *)

Lemma upload_not_200 (train_file : string) (self self1 : OpenAIModule)
  (r : Response) :
  upload_answered train_file self self1 r ->
  status_code r <> 200%Z ->
  _upload_train_file train_file self =
    (match error_body r with
     | Ok msg => Raise (RequestException msg)
     | Raise e => Raise e
     end, self1).
Proof.
  intros [Hget Hpost] Hcode. unfold _upload_train_file. run_method.
  rewrite Hget. answer Hpost.
  rewrite (not_200 r Hcode). now destruct (error_body r).
Qed.

Lemma upload_200 (train_file : string) (self self1 : OpenAIModule)
  (r : Response) :
  upload_answered train_file self self1 r ->
  status_code r = 200%Z ->
  _upload_train_file train_file self =
    match _dataHandler self1 with
    | Some h =>
        ((body <- r_json r ;; py_getitem body "id")%py,
         set_dataHandler (Some {| data := data h; closed := true |}) self1)
    | None => (Raise (AttributeError "NoneType" "close"), self1)
    end.
Proof.
  intros [Hget Hpost] Hcode. unfold _upload_train_file. run_method.
  rewrite Hget. answer Hpost.
  rewrite (is_200 r Hcode). unfold close_dataHandler.
  destruct (_dataHandler self1); [|reflexivity].
  now destruct (r_json r).
Qed.

(** On the success path the handle is closed, whatever the body holds. *)
Lemma upload_success_closes_handler (train_file : string)
  (self self1 : OpenAIModule) (r : Response) :
  upload_answered train_file self self1 r ->
  status_code r = 200%Z ->
  handler_open self1 ->
  handler_closed (snd (_upload_train_file train_file self)).
Proof.
  intros Hans Hcode (h & Hh & _).
  rewrite (upload_200 _ _ _ _ Hans Hcode), Hh. cbn.
  eexists. split; reflexivity.
Qed.

(** *** Job creation *)

Lemma create_not_200 (train_model train_file_id : json) (kw : dict)
  (self : OpenAIModule) (r : Response) :
  create_answered train_model train_file_id kw self r ->
  status_code r <> 200%Z ->
  _create_finetuning_job train_model train_file_id kw self =
    (match error_body r with
     | Ok msg => Raise (RequestException msg)
     | Raise e => Raise e
     end, self).
Proof.
  intros Hpost Hcode. unfold _create_finetuning_job. run_method.
  answer Hpost.
  rewrite (not_200 r Hcode). now destruct (error_body r).
Qed.

Lemma create_200 (train_model train_file_id : json) (kw : dict)
  (self : OpenAIModule) (r : Response) :
  create_answered train_model train_file_id kw self r ->
  status_code r = 200%Z ->
  _create_finetuning_job train_model train_file_id kw self =
    ((body <- r_json r ;;
      fine_tuning_job_id <- py_getitem body "id" ;;
      body' <- r_json r ;;
      status <- py_getitem body' "status" ;;
      Ok (fine_tuning_job_id, status))%py, self).
Proof.
  intros Hpost Hcode. unfold _create_finetuning_job. run_method.
  answer Hpost.
  rewrite (is_200 r Hcode).
  destruct (r_json r) as [body|e]; [|reflexivity]. cbn [bind].
  destruct (py_getitem body "id"); [|reflexivity]. cbn [bind].
  now destruct (py_getitem body "status").
Qed.

(** *** Job query *)

Lemma query_not_200 (fine_tuning_job_id : string) (self : OpenAIModule)
  (r : Response) :
  query_answered fine_tuning_job_id self r ->
  status_code r <> 200%Z ->
  _query_finetuning_job fine_tuning_job_id self =
    (match error_body r with
     | Ok msg => Raise (RequestException msg)
     | Raise e => Raise e
     end, self).
Proof.
  intros Hget Hcode. unfold _query_finetuning_job. run_method.
  answer Hget.
  rewrite (not_200 r Hcode). now destruct (error_body r).
Qed.

Lemma query_200 (fine_tuning_job_id : string) (self : OpenAIModule)
  (r : Response) :
  query_answered fine_tuning_job_id self r ->
  status_code r = 200%Z ->
  _query_finetuning_job fine_tuning_job_id self =
    ((body <- r_json r ;;
      status <- py_getitem body "status" ;;
      low <- py_lower status ;;
      if String.eqb low "succeeded"
      then body' <- r_json r ;;
           fine_tuned_model <- py_getitem body' "fine_tuned_model" ;;
           Ok (fine_tuned_model, status)
      else Ok (JNull, status))%py, self).
Proof.
  intros Hget Hcode. unfold _query_finetuning_job. run_method.
  answer Hget.
  rewrite (is_200 r Hcode).
  destruct (r_json r) as [body|e]; [|reflexivity]. cbn [bind].
  destruct (py_getitem body "status") as [status|e]; [|reflexivity].
  cbn [bind].
  destruct (py_lower status) as [low|e]; [|reflexivity]. cbn [bind].
  destruct (String.eqb low "succeeded"); [|reflexivity].
  now destruct (py_getitem body "fine_tuned_model").
Qed.

(** *** What can and cannot raise the exception *)







Lemma error_body_raises {A : Type} (r : Response) :
  @is_raise A match error_body r with
              | Ok msg => Raise (RequestException msg)
              | Raise e => Raise e
              end.
Proof. destruct (error_body r); eexists; reflexivity. Qed.

End LifecycleFacts.

Section LifecycleClaims.
Context {http : Requests} {base : FileHandlerBase}.

(** C1 fails on the code.  When the server answers the upload with a
    status other than 200, [_upload_train_file] raises and leaves
    [self._dataHandler] as [get_finetune_data] left it: an open handle
    stays open.  (On status 200 it is closed,
    [upload_success_closes_handler].) *)
Theorem upload_failure_leaves_handler_open (train_file : string)
  (self self1 : OpenAIModule) (r : Response) :
  upload_answered train_file self self1 r ->
  status_code r <> 200%Z ->
  handler_open self1 ->
  is_raise (fst (_upload_train_file train_file self)) /\
  handler_open (snd (_upload_train_file train_file self)).
Proof.
  intros Hans Hcode Hopen. rewrite (upload_not_200 _ _ _ _ Hans Hcode).
  split; [|exact Hopen]. cbn [fst]. apply error_body_raises.
Qed.


(** C3 (as amended).  On a 200 response whose body is an object with a
    string [status]: if the status, lowered, is not ["succeeded"], the
    query returns no model ([None]) with the status, whatever
    [fine_tuned_model] holds; if it is, the query returns the value of
    [fine_tuned_model] with the status.  So the returned model is present
    exactly when the status is ["succeeded"] up to case and the body's
    [fine_tuned_model] is not null. *)
Theorem query_model_iff_succeeded (fine_tuning_job_id : string)
  (self : OpenAIModule) (r : Response) (d : dict) (st : string) :
  query_answered fine_tuning_job_id self r ->
  status_code r = 200%Z ->
  r_json r = Ok (JObj d) ->
  dict_get "status" d = Some (JStr st) ->
  (lower st <> "succeeded" ->
   _query_finetuning_job fine_tuning_job_id self =
     (Ok (JNull, JStr st), self)) /\
  (lower st = "succeeded" ->
   forall v, dict_get "fine_tuned_model" d = Some v ->
   _query_finetuning_job fine_tuning_job_id self = (Ok (v, JStr st), self)) /\
  (forall model status,
     fst (_query_finetuning_job fine_tuning_job_id self) = Ok (model, status) ->
     status = JStr st /\
     (model <> JNull <->
      lower st = "succeeded" /\
      exists v, dict_get "fine_tuned_model" d = Some v /\ v <> JNull)).
Proof.
  intros Hans Hcode Hjson Hst. rewrite (query_200 _ _ _ Hans Hcode), Hjson.
  cbn [bind py_getitem]. rewrite Hst. cbn [bind py_lower].
  destruct (String.eqb_spec (lower st) "succeeded") as [Hs|Hs].
  - split; [intros Hn; contradiction|].
    split.
    + intros _ v Hv. now rewrite Hv.
    + intros model status. destruct (dict_get "fine_tuned_model" d) as [v|];
        cbn [bind fst]; [|discriminate].
      intros H. inversion H; subst. split; [reflexivity|]. split.
      * intros Hm. split; [exact Hs|]. exists model. now split.
      * intros (_ & v & Hv & Hn). now inversion Hv; subst.
  - split; [reflexivity|]. split; [intros Hn; contradiction|].
    intros model status H. cbn [fst] in H. inversion H; subst.
    split; [reflexivity|]. split; [congruence|]. now intros [Hn _].
Qed.

(** C7 (as amended).  On a 200 response whose body is a JSON object,
    [_create_finetuning_job] returns the pair of the body's [id] and
    [status]; when [id] is missing it raises [KeyError('id')], when only
    [status] is missing [KeyError('status')]; a pair it returns has both
    components from the body. *)
Theorem create_returns_id_and_status (train_model train_file_id : json)
  (kw : dict) (self : OpenAIModule) (r : Response) (d : dict) :
  create_answered train_model train_file_id kw self r ->
  status_code r = 200%Z ->
  r_json r = Ok (JObj d) ->
  (forall job st,
     dict_get "id" d = Some job -> dict_get "status" d = Some st ->
     _create_finetuning_job train_model train_file_id kw self =
       (Ok (job, st), self)) /\
  (dict_get "id" d = None ->
   _create_finetuning_job train_model train_file_id kw self =
     (Raise (KeyError "id"), self)) /\
  (forall job,
     dict_get "id" d = Some job -> dict_get "status" d = None ->
     _create_finetuning_job train_model train_file_id kw self =
       (Raise (KeyError "status"), self)) /\
  (forall job st,
     fst (_create_finetuning_job train_model train_file_id kw self) =
       Ok (job, st) ->
     dict_get "id" d = Some job /\ dict_get "status" d = Some st).
Proof.
  intros Hans Hcode Hjson. rewrite (create_200 _ _ _ _ _ Hans Hcode), Hjson.
  cbn [bind py_getitem]. repeat split.
  - intros job st Hid Hst. now rewrite Hid, Hst.
  - intros Hid. now rewrite Hid.
  - intros job Hid Hst. now rewrite Hid, Hst.
  - destruct (dict_get "id" d) as [job'|]; [|discriminate].
    cbn [bind] in H. destruct (dict_get "status" d); [|discriminate].
    cbn [bind fst] in H. now inversion H.
  - destruct (dict_get "id" d) as [job'|]; [|discriminate].
    cbn [bind] in H. destruct (dict_get "status" d) as [st'|]; [|discriminate].
    cbn [bind fst] in H. now inversion H.
Qed.

(** C8.  [_create_deployment] returns the model name of the module with
    ["RUNNING"], [_query_deployment] returns ["RUNNING"] for any
    identifier; neither raises nor changes [self]. *)
Theorem deployment_stub_running (self : OpenAIModule) (deployment_id : json) :
  _create_deployment self = (Ok (_model_name self, "RUNNING"), self) /\
  _query_deployment deployment_id self = (Ok "RUNNING", self).
Proof. split; reflexivity. Qed.

(** C9.  On a 200 response whose [status] is ["succeeded"] up to case and
    whose body has no [fine_tuned_model] key, the query raises
    [KeyError('fine_tuned_model')]: it does not return. *)
Theorem query_succeeded_without_model_raises (fine_tuning_job_id : string)
  (self : OpenAIModule) (r : Response) (d : dict) (st : string) :
  query_answered fine_tuning_job_id self r ->
  status_code r = 200%Z ->
  r_json r = Ok (JObj d) ->
  dict_get "status" d = Some (JStr st) ->
  lower st = "succeeded" ->
  dict_get "fine_tuned_model" d = None ->
  _query_finetuning_job fine_tuning_job_id self =
    (Raise (KeyError "fine_tuned_model"), self).
Proof.
  intros Hans Hcode Hjson Hst Hlow Hmodel.
  rewrite (query_200 _ _ _ Hans Hcode), Hjson.
  cbn [bind py_getitem]. rewrite Hst. cbn [bind py_lower]. rewrite Hlow.
  cbn. now rewrite Hmodel.
Qed.

End LifecycleClaims.

(** C1, at the failing input: the file converts, the server answers 400
    with body [bad request]; the upload raises and the handle on the
    converted dataset is still open. *)
Lemma upload_400_leaves_handler_open :
  fst (@_upload_train_file (answering bad_request) base0 "train.jsonl" self0)
    = Raise (RequestException "bad request") /\
  handler_open
    (snd (@_upload_train_file (answering bad_request) base0 "train.jsonl" self0)).
Proof.
  split; [vm_compute; reflexivity|].
  refine (proj2 (@upload_failure_leaves_handler_open (answering bad_request)
                   base0 "train.jsonl" self0 prepared0 bad_request _ _ _)).
  - split; vm_compute; reflexivity.
  - discriminate.
  - unfold handler_open. vm_compute. eexists. split; reflexivity.
Defined.



(** C3, at the end-to-end scenario and at a running job whose body has a
    [fine_tuned_model]. *)
Lemma query_succeeded_and_running :
  @_query_finetuning_job (answering succeeded_job) "ftjob-1" self0 =
    (Ok (JStr "ft:model-1", JStr "succeeded"), self0) /\
  @_query_finetuning_job (answering running_job) "ftjob-1" self0 =
    (Ok (JNull, JStr "running"), self0).
Proof.
  split.
  - refine (proj1 (proj2 (query_model_iff_succeeded
                            (http := answering succeeded_job) "ftjob-1" self0
                            succeeded_job _ "succeeded" _ _ _ _)) _ _ _);
      try (vm_compute; reflexivity).
  - refine (proj1 (query_model_iff_succeeded
                     (http := answering running_job) "ftjob-1" self0
                     running_job _ "running" _ _ _ _) _);
      try (vm_compute; reflexivity). vm_compute. discriminate.
Defined.

(** C3 as stated fails: the status is ["succeeded"] and no model is
    returned, the body's [fine_tuned_model] being null. *)
Lemma query_succeeded_null_model :
  @_query_finetuning_job (answering succeeded_null_model) "ftjob-1" self0 =
    (Ok (JNull, JStr "succeeded"), self0).
Proof. vm_compute. reflexivity. Qed.

(** C7, at a body with both fields and at one without [status]. *)
Lemma create_job_examples :
  @_create_finetuning_job (answering queued_job) (JStr "gpt-3.5-turbo-0125")
    (JStr "file-123") [] self0 =
    (Ok (JStr "ftjob-1", JStr "queued"), self0) /\
  @_create_finetuning_job (answering job_without_status)
    (JStr "gpt-3.5-turbo-0125") (JStr "file-123") [] self0 =
    (Raise (KeyError "status"), self0).
Proof.
  split.
  - refine (proj1 (create_returns_id_and_status
                     (http := answering queued_job) _ _ [] self0 queued_job
                     _ _ _ _) _ _ _ _); vm_compute; reflexivity.
  - refine (proj1 (proj2 (proj2 (create_returns_id_and_status
                     (http := answering job_without_status) _ _ [] self0
                     job_without_status _ _ _ _))) _ _ _);
      vm_compute; reflexivity.
Defined.

(** C7 as stated fails: the response is a success (201) with both fields,
    and the call raises instead of returning the pair. *)
Lemma create_201_raises :
  status_code created_job = 201%Z /\
  r_json created_job =
    Ok (JObj [("id", JStr "ftjob-1"); ("status", JStr "queued")]) /\
  fst (@_create_finetuning_job (answering created_job)
         (JStr "gpt-3.5-turbo-0125") (JStr "file-123") [] self0) =
    Raise (RequestException
             (json_text "{'id': 'ftjob-1', 'status': 'queued'}")).
Proof. repeat split; vm_compute; reflexivity. Qed.

(** C9, at the status [Succeeded] without a model. *)
Lemma query_succeeded_no_model_raises :
  @_query_finetuning_job (answering succeeded_no_model) "ftjob-1" self0 =
    (Raise (KeyError "fine_tuned_model"), self0).
Proof.
  refine (query_succeeded_without_model_raises
            (http := answering succeeded_no_model) "ftjob-1" self0
            succeeded_no_model _ "Succeeded" _ _ _ _ _ _);
    vm_compute; reflexivity.
Defined.

(* ===================================================================== *)
(** ** Further properties of the conversion *)
(* ===================================================================== *)

Section ConversionMore.
Context {codec : JsonCodec} {fs : FileSystem}.

Lemma convert_dataset_length (dataset : list json) :
  forall out,
    convert_dataset dataset = Ok out -> List.length out = List.length dataset.
Proof.
  induction dataset as [|ex rest IH]; intros out H.
  - now inversion H.
  - cbn [convert_dataset] in H.
    destruct (convert_example ex) as [lineEx|e]; [|discriminate].
    cbn [bind] in H.
    destruct (convert_dataset rest) as [out'|e]; [|discriminate].
    inversion H. cbn [List.length]. now rewrite (IH out').
Qed.

(** The inner loop ends well only on dicts. *)
Lemma convert_messages_ok_dicts (messages : list json) :
  forall acc kept,
    convert_messages messages acc = Ok kept -> Forall is_dict messages.
Proof.
  induction messages as [|m rest IH]; intros acc kept H; [constructor|].
  destruct m as [| | | | |items|d]; try discriminate H.
  rewrite convert_messages_step in H. constructor; [now exists d|].
  destruct (recognized (JObj d)); exact (IH _ _ H).
Qed.

Lemma chars_dicts (s : string) : Forall is_dict (chars s) -> s = "".
Proof.
  destruct s as [|c rest]; [reflexivity|]. intros H. inversion H as [|x l [d Hd] _].
  discriminate Hd.
Qed.

Lemma keys_dicts (d : dict) :
  Forall is_dict (map (fun kv => JStr (fst kv)) d) -> d = [].
Proof.
  destruct d as [|kv rest]; [reflexivity|]. intros H.
  inversion H as [|x l [d' Hd] _]. discriminate Hd.
Qed.

Lemma convert_example_ok (ex lineEx : json) :
  convert_example ex = Ok lineEx -> lineEx = converted ex.
Proof.
  unfold convert_example, converted, messages_of. intros H.
  destruct ex as [| | | | |items|d]; try discriminate H.
  cbn [py_get] in H.
  destruct (dict_get "messages" d) as [messages|]; cbn [bind] in H.
  - destruct messages as [| | | |s|items|d']; try discriminate H;
      cbn [py_iter bind] in H.
    + destruct (convert_messages (chars s) []) as [kept|e] eqn:E;
        [|discriminate].
      rewrite (chars_dicts s (convert_messages_ok_dicts _ _ _ E)) in E.
      cbn in E. inversion E; subst. cbn [bind] in H. now inversion H.
    + destruct (convert_messages items []) as [kept|e] eqn:E; [|discriminate].
      rewrite (convert_messages_dicts items
                 (convert_messages_ok_dicts _ _ _ E) []) in E.
      inversion E; subst. cbn [bind] in H. now inversion H.
    + destruct (convert_messages (map (fun kv => JStr (fst kv)) d') [])
        as [kept|e] eqn:E; [|discriminate].
      rewrite (keys_dicts d' (convert_messages_ok_dicts _ _ _ E)) in E.
      cbn in E. inversion E; subst. cbn [bind] in H. now inversion H.
  - cbn in H. now inversion H.
Qed.

(** X1.  Whatever the file holds, a conversion that returns has written
    one record per line, each holding nothing but a [messages] list whose
    entries hold exactly [role] and [content], the role being one of the
    three: every other key of a record or of a message (such as [weight])
    is gone. *)
Theorem convert_file_writes_canonical_records (filepath out_text : string) :
  _convert_file_format filepath = Ok out_text ->
  exists text records out,
    read_text filepath = Some text /\
    parses_to (readlines (universal_newlines text)) records /\
    convert_dataset records = Ok out /\
    out_text = String.concat newline (map json_dumps out) /\
    Forall canonical_record out /\
    List.length out = List.length (readlines (universal_newlines text)).
Proof.
  unfold _convert_file_format. intros H.
  destruct (read_text filepath) as [text|]; [|discriminate].
  destruct (load_lines (readlines (universal_newlines text)))
    as [records|e] eqn:Hload; [|discriminate].
  cbn [bind] in H. rewrite convert_examples_dataset in H.
  destruct (convert_dataset records) as [out|e] eqn:Hconv; [|discriminate].
  cbn [bind app] in H. inversion H.
  apply load_lines_parses in Hload.
  exists text, records, out. repeat split; try assumption.
  - exact (convert_dataset_writes_canonical _ _ Hconv).
  - rewrite (convert_dataset_length _ _ Hconv).
    exact (parses_to_length _ _ Hload).
Qed.

(** X2.  When the conversion of a record returns, what it wrote is the
    record's messages filtered by role and reduced to role and content:
    no message is added, altered or moved, and the record never has more
    messages than before. *)
Theorem convert_example_filters (ex lineEx : json) :
  convert_example ex = Ok lineEx ->
  lineEx =
    JObj [("messages",
           JArr (map kept_form (filter recognized (messages_of ex))))] /\
  List.length (messages_of lineEx) <= List.length (messages_of ex).
Proof.
  intros H. apply convert_example_ok in H. subst lineEx. split; [reflexivity|].
  unfold converted at 1. cbn [messages_of dict_get String.eqb Ascii.eqb Bool.eqb].
  rewrite length_map. apply filter_length_le.
Qed.

(** X3.  A file whose records have no [messages] key, as the
    prompt/completion records of the docstring, converts without error to
    as many records with an empty [messages] list: the prompts and
    completions are not carried over. *)
Theorem records_without_messages_are_emptied (filepath text : string)
  (records : list json) :
  read_text filepath = Some text ->
  parses_to (readlines (universal_newlines text)) records ->
  Forall has_no_messages records ->
  _convert_file_format filepath =
    Ok (String.concat newline
          (repeat (json_dumps empty_record)
             (List.length (readlines (universal_newlines text))))).
Proof.
  intros Hread Hparse Hnone.
  rewrite (convert_file_format_records _ _ _ Hread Hparse).
  rewrite <- (parses_to_length _ _ Hparse).
  assert (Hconv : convert_dataset records =
                  Ok (repeat empty_record (List.length records))).
  { clear Hparse. induction Hnone as [|ex rest (d & -> & Hd) _ IH];
      [reflexivity|].
    cbn [convert_dataset]. unfold convert_example at 1. cbn [py_get].
    rewrite Hd. cbn [bind py_iter convert_messages]. rewrite IH.
    reflexivity. }
  rewrite Hconv. cbn [bind]. now rewrite map_repeat.
Qed.


(** X5.  A message that is not an object makes the conversion of its
    record raise [AttributeError] on [get], wherever it stands among the
    messages and whatever was kept before it: no partial record is
    written. *)
Theorem non_object_message_aborts_record (d : dict)
  (before after : list json) (m : json) :
  dict_get "messages" d = Some (JArr (before ++ m :: after)%list) ->
  Forall is_dict before ->
  ~ is_dict m ->
  convert_example (JObj d) = Raise (AttributeError (type_name m) "get").
Proof.
  intros Hm Hbefore Hnot. unfold convert_example. cbn [py_get].
  rewrite Hm. cbn [bind py_iter].
  assert (H : forall acc,
             convert_messages (before ++ m :: after) acc =
             Raise (AttributeError (type_name m) "get")).
  { clear Hm. induction Hbefore as [|b before [db ->] _ IH]; intros acc.
    - cbn [app convert_messages].
      destruct m; try reflexivity. destruct Hnot. now eexists.
    - cbn [app]. rewrite convert_messages_step.
      destruct (recognized (JObj db)); apply IH. }
  now rewrite H.
Qed.

End ConversionMore.

(** X1, at the two-line file. *)
Lemma two_lines_written_canonical :
  exists text records out,
    @read_text (one_file "train.jsonl" two_lines) "train.jsonl" = Some text /\
    @parses_to ref_codec (readlines (universal_newlines text)) records /\
    convert_dataset records = Ok out /\
    String.concat newline (map RefJson.dumps (map converted two_records)) =
      String.concat newline (map (@json_dumps ref_codec) out) /\
    Forall canonical_record out /\
    List.length out = List.length (readlines (universal_newlines text)).
Proof.
  apply (@convert_file_writes_canonical_records ref_codec
           (one_file "train.jsonl" two_lines) "train.jsonl").
  vm_compute. reflexivity.
Defined.

(** X2, at a message with a weight: the weight is not written. *)
Lemma weighted_message_filtered :
  JObj [("messages", JArr [chat "assistant" "Paris"])] =
    JObj [("messages",
           JArr (map kept_form
                   (filter recognized
                      (messages_of
                         (JObj [("messages", JArr [weighted_message])])))))] /\
  List.length
    (messages_of (JObj [("messages", JArr [chat "assistant" "Paris"])])) <=
  List.length (messages_of (JObj [("messages", JArr [weighted_message])])).
Proof.
  apply convert_example_filters. reflexivity.
Defined.

(** X3, at two prompt/completion lines. *)
Lemma completion_lines_emptied :
  @_convert_file_format ref_codec (one_file "train.jsonl" completion_lines)
    "train.jsonl" =
    Ok (String.concat newline
          (repeat (RefJson.dumps empty_record)
             (List.length (readlines (universal_newlines completion_lines))))).
Proof.
  apply (@records_without_messages_are_emptied ref_codec
           (one_file "train.jsonl" completion_lines) "train.jsonl"
           completion_lines completion_records).
  - reflexivity.
  - repeat constructor.
  - repeat constructor; eexists; split; reflexivity.
Defined.


(** X5, at a string after a kept message. *)
Lemma string_message_aborts_record :
  convert_example
    (JObj [("messages", JArr [chat "user" "Hi"; JStr "hi"; chat "user" "x"])]) =
    Raise (AttributeError "str" "get").
Proof.
  apply (non_object_message_aborts_record _ [chat "user" "Hi"]
           [chat "user" "x"] (JStr "hi")).
  - reflexivity.
  - repeat constructor. eexists. reflexivity.
  - intros [d H]. discriminate H.
Defined.

(* ===================================================================== *)
(** ** Further properties of the remote operations *)
(* ===================================================================== *)







Lemma decode_chunks_invalid (chunks : list string) :
  Exists (fun c => utf8_valid c = false) chunks ->
  decode_chunks chunks = Raise UnicodeDecodeError.
Proof.
  induction chunks as [|c rest IH]; intros H; [inversion H|].
  cbn [decode_chunks]. unfold py_decode.
  destruct (utf8_valid c) eqn:Hc; [|reflexivity].
  cbn [bind]. inversion H as [x l Hbad|x l Hrest]; subst; [congruence|].
  now rewrite (IH Hrest).
Qed.

Lemma error_body_invalid (r : Response) :
  Exists (fun c => utf8_valid c = false) (iter_content r) ->
  error_body r = Raise UnicodeDecodeError.
Proof.
  intros H. unfold error_body. now rewrite (decode_chunks_invalid _ H).
Qed.

Section LifecycleMore.
Context {http : Requests} {base : FileHandlerBase}.

(** X6.  On status 200 the upload closes the handle on the converted
    dataset before it reads the body: the handle ends closed, with its
    data untouched, whether the call returns the body's [id] or raises
    because the body is not JSON or has no [id]. *)
Theorem upload_success_closes_before_reading (train_file : string)
  (self self1 : OpenAIModule) (r : Response) (h : DataHandler) :
  upload_answered train_file self self1 r ->
  status_code r = 200%Z ->
  _dataHandler self1 = Some h ->
  fst (_upload_train_file train_file self) =
    (body <- r_json r ;; py_getitem body "id")%py /\
  _dataHandler (snd (_upload_train_file train_file self)) =
    Some {| data := data h; closed := true |}.
Proof.
  intros Hans Hcode Hh. rewrite (upload_200 _ _ _ _ Hans Hcode), Hh.
  split; reflexivity.
Qed.

(** X7.  When [get_finetune_data] raises (the file does not convert), the
    upload raises the same error and leaves [self] as that call left it,
    whatever the transport would answer. *)
Theorem upload_conversion_failure_propagates (train_file : string)
  (self self' : OpenAIModule) (e : exn) :
  get_finetune_data train_file self = (Raise e, self') ->
  _upload_train_file train_file self = (Raise e, self').
Proof.
  intros Hget. unfold _upload_train_file. run_method. now rewrite Hget.
Qed.

(** X8.  A failure of the transport is raised unchanged by each of the
    three operations; [self] stays as it was, so after a failed upload the
    handle [get_finetune_data] opened is still open. *)
Theorem transport_failure_propagates (e : exn) :
  (forall train_file self self1,
     get_finetune_data train_file self = (Ok tt, self1) ->
     requests_post (os_path_join (_base_url self) "files") [bearer self]
       (upload_files train_file self1) = Raise e ->
     _upload_train_file train_file self = (Raise e, self1)) /\
  (forall train_model train_file_id kw self,
     requests_post (os_path_join (_base_url self) "fine_tuning/jobs")
       [("Content-Type", "application/json"); bearer self]
       (job_data train_model train_file_id kw) = Raise e ->
     _create_finetuning_job train_model train_file_id kw self =
       (Raise e, self)) /\
  (forall fine_tuning_job_id self,
     requests_get
       (os_path_join (_base_url self)
          ("fine_tuning/jobs/" ++ fine_tuning_job_id))
       [bearer self] = Raise e ->
     _query_finetuning_job fine_tuning_job_id self = (Raise e, self)).
Proof.
  split; [|split].
  - intros train_file self self1 Hget Hpost.
    unfold _upload_train_file. run_method. rewrite Hget. now answer Hpost.
  - intros train_model train_file_id kw self Hpost.
    unfold _create_finetuning_job. run_method. now answer Hpost.
  - intros fine_tuning_job_id self Hget.
    unfold _query_finetuning_job. run_method. now answer Hget.
Qed.

(** X9.  Querying a job and creating a job never change [self], whatever
    the server answers; an upload changes nothing of what
    [get_finetune_data] left but the handle: the API key, the base URL and
    the model name stay. *)
Theorem operations_leave_self (self : OpenAIModule) :
  (forall fine_tuning_job_id,
     snd (_query_finetuning_job fine_tuning_job_id self) = self) /\
  (forall train_model train_file_id kw,
     snd (_create_finetuning_job train_model train_file_id kw self) = self) /\
  (forall train_file,
     let self1 := snd (get_finetune_data train_file self) in
     let self2 := snd (_upload_train_file train_file self) in
     _api_key self2 = _api_key self1 /\
     _base_url self2 = _base_url self1 /\
     _model_name self2 = _model_name self1).
Proof.
  split; [|split].
  - intros fine_tuning_job_id.
    destruct (requests_get
                (os_path_join (_base_url self)
                   ("fine_tuning/jobs/" ++ fine_tuning_job_id))
                [bearer self]) as [r|e] eqn:E.
    + destruct (Z.eq_dec (status_code r) 200) as [Hcode|Hcode].
      * now rewrite (query_200 _ _ _ E Hcode).
      * now rewrite (query_not_200 _ _ _ E Hcode).
    + unfold _query_finetuning_job. run_method. now answer E.
  - intros train_model train_file_id kw.
    destruct (requests_post
                (os_path_join (_base_url self) "fine_tuning/jobs")
                [("Content-Type", "application/json"); bearer self]
                (job_data train_model train_file_id kw)) as [r|e] eqn:E.
    + destruct (Z.eq_dec (status_code r) 200) as [Hcode|Hcode].
      * now rewrite (create_200 _ _ _ _ _ E Hcode).
      * now rewrite (create_not_200 _ _ _ _ _ E Hcode).
    + unfold _create_finetuning_job. run_method. now answer E.
  - intros train_file. cbv zeta.
    destruct (get_finetune_data train_file self) as [[[]|e] self1] eqn:Hget.
    + destruct (requests_post (os_path_join (_base_url self) "files")
                  [bearer self] (upload_files train_file self1))
        as [r|e] eqn:E.
      * destruct (Z.eq_dec (status_code r) 200) as [Hcode|Hcode].
        -- rewrite (upload_200 _ _ _ _ (conj Hget E) Hcode).
           destruct (_dataHandler self1); repeat split.
        -- rewrite (upload_not_200 _ _ _ _ (conj Hget E) Hcode).
           repeat split.
      * unfold _upload_train_file. run_method. rewrite Hget. answer E.
        repeat split.
    + unfold _upload_train_file. run_method. rewrite Hget. repeat split.
Qed.

(** X12.  On a status other than 200, a chunk of the body that is not
    UTF-8 makes each operation raise [UnicodeDecodeError] instead of the
    [RequestException]. *)
Theorem undecodable_body_raises_decode_error (r : Response) :
  status_code r <> 200%Z ->
  Exists (fun c => utf8_valid c = false) (iter_content r) ->
  (forall train_file self self1,
     upload_answered train_file self self1 r ->
     fst (_upload_train_file train_file self) = Raise UnicodeDecodeError) /\
  (forall train_model train_file_id kw self,
     create_answered train_model train_file_id kw self r ->
     fst (_create_finetuning_job train_model train_file_id kw self) =
       Raise UnicodeDecodeError) /\
  (forall fine_tuning_job_id self,
     query_answered fine_tuning_job_id self r ->
     fst (_query_finetuning_job fine_tuning_job_id self) =
       Raise UnicodeDecodeError).
Proof.
  intros Hcode Hbad. split; [|split].
  - intros train_file self self1 Hans.
    rewrite (upload_not_200 _ _ _ _ Hans Hcode).
    now rewrite (error_body_invalid r Hbad).
  - intros train_model train_file_id kw self Hans.
    rewrite (create_not_200 _ _ _ _ _ Hans Hcode).
    now rewrite (error_body_invalid r Hbad).
  - intros fine_tuning_job_id self Hans.
    rewrite (query_not_200 _ _ _ Hans Hcode).
    now rewrite (error_body_invalid r Hbad).
Qed.

(** X13.  On status 200 the query raises what [r.json()] raises when the
    body is not JSON, [KeyError('status')] when the body has no [status],
    and [AttributeError] on [lower] when the status is not a string (null,
    a number); in none of these cases does it look at
    [fine_tuned_model]. *)
Theorem query_status_missing_or_not_string (fine_tuning_job_id : string)
  (self : OpenAIModule) (r : Response) :
  query_answered fine_tuning_job_id self r ->
  status_code r = 200%Z ->
  (forall e, r_json r = Raise e ->
     _query_finetuning_job fine_tuning_job_id self = (Raise e, self)) /\
  (forall d, r_json r = Ok (JObj d) -> dict_get "status" d = None ->
     _query_finetuning_job fine_tuning_job_id self =
       (Raise (KeyError "status"), self)) /\
  (forall d v, r_json r = Ok (JObj d) -> dict_get "status" d = Some v ->
     (forall s, v <> JStr s) ->
     _query_finetuning_job fine_tuning_job_id self =
       (Raise (AttributeError (type_name v) "lower"), self)).
Proof.
  intros Hans Hcode. rewrite (query_200 _ _ _ Hans Hcode).
  split; [|split].
  - intros e He. now rewrite He.
  - intros d Hd Hs. rewrite Hd. cbn [bind py_getitem]. now rewrite Hs.
  - intros d v Hd Hs Hv. rewrite Hd. cbn [bind py_getitem]. rewrite Hs.
    cbn [bind]. destruct v; try reflexivity. now destruct (Hv s).
Qed.

End LifecycleMore.



(** X6, at a 200 answer whose body is not JSON: the call raises and the
    handle is closed. *)
Lemma upload_200_not_json_closes :
  fst (@_upload_train_file (answering not_json) base0 "train.jsonl" self0) =
    (body <- r_json not_json ;; py_getitem body "id")%py /\
  _dataHandler
    (snd (@_upload_train_file (answering not_json) base0 "train.jsonl" self0)) =
    Some {| data := data handle0; closed := true |}.
Proof.
  apply (@upload_success_closes_before_reading (answering not_json) base0
           "train.jsonl" self0 prepared0 not_json handle0).
  - split; vm_compute; reflexivity.
  - reflexivity.
  - vm_compute. reflexivity.
Defined.

(** X7, at a file whose second line is malformed. *)
Lemma upload_of_malformed_file_raises :
  @_upload_train_file (answering succeeded_job) base_malformed "train.jsonl"
    self0 =
    (Raise (JSONDecodeError "Expecting value" ("oops" ++ newline) 0), self0).
Proof.
  apply (@upload_conversion_failure_propagates (answering succeeded_job)
           base_malformed).
  vm_compute. reflexivity.
Defined.

(** X8, at a refused connection. *)
Lemma refused_connection_propagates :
  @_upload_train_file (failing refused) base0 "train.jsonl" self0 =
    (Raise refused, prepared0) /\
  @_query_finetuning_job (failing refused) "ftjob-1" self0 =
    (Raise refused, self0).
Proof.
  destruct (@transport_failure_propagates (failing refused) base0 refused)
    as (Hupload & _ & Hquery).
  split.
  - apply Hupload; [vm_compute|]; reflexivity.
  - apply Hquery. reflexivity.
Defined.



(** X12, at a 500 answer with a chunk that is not UTF-8. *)
Lemma binary_error_body_raises_decode_error :
  fst (@_query_finetuning_job (answering binary_error) "ftjob-1" self0) =
    Raise UnicodeDecodeError.
Proof.
  assert (Hcode : status_code binary_error <> 200%Z) by discriminate.
  assert (Hbad : Exists (fun c => utf8_valid c = false)
                   (iter_content binary_error))
    by (apply Exists_cons_tl, Exists_cons_hd; vm_compute; reflexivity).
  destruct (@undecodable_body_raises_decode_error (answering binary_error)
              base0 binary_error Hcode Hbad) as (_ & _ & Hquery).
  apply Hquery. reflexivity.
Defined.

(** X13, at a null status and at a body without status. *)
Lemma null_and_missing_status_raise :
  @_query_finetuning_job (answering null_status) "ftjob-1" self0 =
    (Raise (AttributeError "NoneType" "lower"), self0) /\
  @_query_finetuning_job (answering no_status) "ftjob-1" self0 =
    (Raise (KeyError "status"), self0).
Proof.
  split.
  - destruct (@query_status_missing_or_not_string (answering null_status)
                "ftjob-1" self0 null_status eq_refl eq_refl)
      as (_ & _ & Hnot).
    apply (Hnot [("status", JNull)] JNull);
      [vm_compute; reflexivity | reflexivity | discriminate].
  - destruct (@query_status_missing_or_not_string (answering no_status)
                "ftjob-1" self0 no_status eq_refl eq_refl)
      as (_ & Hmissing & _).
    apply (Hmissing [("fine_tuned_model", JStr "ft:model-1")]);
      [vm_compute; reflexivity | reflexivity].
Defined.

(* ===================================================================== *)
(** ** Re-conversion and the name of the uploaded file *)
(* ===================================================================== *)

Section Reconversion.
Context {codec : JsonCodec} {fs : FileSystem}.

(** X14.  Whatever the records of a file are, when their conversion
    returns, converting the records written returns them unchanged: the
    conversion of any file whose lines parse to them equals the first
    conversion.  This holds also for input that is not well formed
    (messages with other roles or other keys). *)
Theorem converted_output_is_fixed (filepath text : string)
  (records out : list json) :
  read_text filepath = Some text ->
  parses_to (readlines (universal_newlines text)) records ->
  convert_dataset records = Ok out ->
  _convert_file_format filepath =
    Ok (String.concat newline (map json_dumps out)) /\
  convert_dataset out = Ok out /\
  (forall filepath' text',
     read_text filepath' = Some text' ->
     parses_to (readlines (universal_newlines text')) out ->
     _convert_file_format filepath' = _convert_file_format filepath).
Proof.
  intros Hread Hparse Hconv.
  assert (Hfile : _convert_file_format filepath =
                  Ok (String.concat newline (map json_dumps out))).
  { now rewrite (convert_file_format_records _ _ _ Hread Hparse), Hconv. }
  assert (Htwice := convert_dataset_twice _ _ Hconv).
  split; [exact Hfile|]. split; [exact Htwice|].
  intros filepath' text' Hread' Hparse'.
  now rewrite (convert_file_format_records _ _ _ Hread' Hparse'), Htwice, Hfile.
Qed.

End Reconversion.

(** X14, at the two-line file, whose first record has a [tool] message. *)
Lemma two_lines_converted_twice :
  @_convert_file_format ref_codec
    (two_files "train.jsonl" two_lines "converted.jsonl" (data handle0))
    "converted.jsonl" =
  @_convert_file_format ref_codec
    (two_files "train.jsonl" two_lines "converted.jsonl" (data handle0))
    "train.jsonl".
Proof.
  destruct (@converted_output_is_fixed ref_codec
              (two_files "train.jsonl" two_lines "converted.jsonl"
                 (data handle0))
              "train.jsonl" two_lines two_records (map converted two_records)
              eq_refl ltac:(repeat constructor) eq_refl)
    as (_ & _ & Hagain).
  apply (Hagain "converted.jsonl" (data handle0) eq_refl).
  unfold parses_to.
  set (lines := readlines (universal_newlines (data handle0))).
  vm_compute in lines. subst lines.
  set (written := map converted two_records).
  vm_compute in written. subst written.
  repeat constructor.
Defined.








